(** * Cluster.ARG.IMD: district classification and aggregation

    A shallow embedding of the classification and counting core of
    [main.py] (toggle map) and [terra.py] (spreadsheet of counts), with the
    properties of that core stated and proved.  [scalp.py] has the same
    validation block and the same [get_district_name] as [main.py].

    Coordinates are Python floats, embedded as binary64 primitive floats;
    only comparisons and the NaN test are ever applied to them.  Every row
    of the boundary file has a district name that is a string: a null name
    cell, on which [.title()] raises [AttributeError] in [main.py] and
    [scalp.py], is outside the embedding, and so [KeyError] is the only
    exception in it.  Names are byte strings and [title] is [str.title] on
    ASCII text; where a statement depends on the casing itself it asks for
    ASCII names ([ascii_names]), because on other text [str.title] is a
    different function and is not idempotent.  The boundary file is taken
    after it has been read and re-projected (the GeoJSON is already in
    EPSG:4326, [to_crs] is the identity on it); the readings table is taken
    after [read_csv]. *)

From Stdlib Require Import Floats Bool List String Ascii ZArith Lia Permutation Sorted.
Import ListNotations.
Open Scope string_scope.

(** * Python: exceptions, strings, insertion-ordered dictionaries *)

Module Py.

Inductive exn : Type :=
| KeyError (key : string).

Inductive result (A : Type) : Type :=
| Ok (a : A)
| Raise (e : exn).
Arguments Ok {A} a.
Arguments Raise {A} e.

Definition bind {A B : Type} (m : result A) (k : A -> result B) : result B :=
  match m with
  | Ok a => k a
  | Raise e => Raise e
  end.

(** A [for] loop whose body may raise: the first exception ends the loop. *)
Fixpoint for_each {R S : Type} (body : R -> S -> result S)
         (rows : list R) (s : S) : result S :=
  match rows with
  | [] => Ok s
  | row :: rest => bind (body row s) (for_each body rest)
  end.

(** ** [str.title] on ASCII text

    CPython walks the string once: a character that follows a cased
    character is lowered, any other is title-cased (upper-cased, for ASCII),
    and the flag becomes "this character is cased".  The cased ASCII
    characters are the letters; other bytes are left as they are, so this
    is [str.title] on ASCII text only ([is_ascii] below). *)

Definition isupper (c : ascii) : bool :=
  let n := nat_of_ascii c in (65 <=? n)%nat && (n <=? 90)%nat.

Definition islower (c : ascii) : bool :=
  let n := nat_of_ascii c in (97 <=? n)%nat && (n <=? 122)%nat.

Definition is_cased (c : ascii) : bool := isupper c || islower c.

Definition lower (c : ascii) : ascii :=
  if isupper c then ascii_of_nat (nat_of_ascii c + 32) else c.

Definition upper (c : ascii) : ascii :=
  if islower c then ascii_of_nat (nat_of_ascii c - 32) else c.

Fixpoint title_from (previous_is_cased : bool) (s : string) : string :=
  match s with
  | EmptyString => EmptyString
  | String c rest =>
      String (if previous_is_cased then lower c else upper c)
             (title_from (is_cased c) rest)
  end.

Definition title (s : string) : string := title_from false s.

(** Truth value of [None] or a string: [None] and [''] are false. *)
Definition truthy (v : option string) : bool :=
  match v with
  | None => false
  | Some s => negb (s =? "")
  end.

(** [x in xs] for a list of strings. *)
Definition contains_str (xs : list string) (x : string) : bool :=
  existsb (String.eqb x) xs.

(** ** Dictionaries with string keys

    A [dict] keeps its keys in insertion order; assigning to a key that is
    already there keeps its place, and reading a missing key raises
    [KeyError]. *)

Definition dict (V : Type) : Type := list (string * V).

Fixpoint dict_get {V : Type} (d : dict V) (k : string) : result V :=
  match d with
  | [] => Raise (KeyError k)
  | (k', v) :: d' => if k' =? k then Ok v else dict_get d' k
  end.

Fixpoint dict_set {V : Type} (d : dict V) (k : string) (v : V) : dict V :=
  match d with
  | [] => [(k, v)]
  | (k', v') :: d' =>
      if k' =? k then (k', v) :: d' else (k', v') :: dict_set d' k v
  end.

Definition keys {V : Type} (d : dict V) : list string := map fst d.

End Py.

Import Py.

Notation "x <- m ;; k" := (Py.bind m (fun x => k))
  (at level 61, m at next level, right associativity).

(** * Shapely: points and the two containment predicates *)

Module Shapely.

(** [Point(x, y)]: the scripts build [Point(lon, lat)]. *)
Record Point : Type := mkPoint { x : float; y : float }.

(** The geometry of a boundary row, with Shapely's binary predicates on a
    point: [contains] holds when the point lies in the interior of the
    geometry (a geometry does not contain its boundary); [covers] holds
    when the point lies in the interior or on the boundary. *)
Class Geometry (G : Type) : Type := {
  contains : G -> Point -> bool;
  covers : G -> Point -> bool
}.

(** [shapely.geometry.box(minx, miny, maxx, maxy)]: the rectangle with
    these corners, the polygons of the worked examples. *)
Record Box : Type := box { minx : float; miny : float; maxx : float; maxy : float }.

Definition box_contains (b : Box) (p : Point) : bool :=
  ((minx b <? x p) && (x p <? maxx b) && (miny b <? y p) && (y p <? maxy b))%float.

Definition box_covers (b : Box) (p : Point) : bool :=
  ((minx b <=? x p) && (x p <=? maxx b) && (miny b <=? y p) && (y p <=? maxy b))%float.

#[export] Instance Box_Geometry : Geometry Box :=
  {| contains := box_contains; covers := box_covers |}.

End Shapely.

Import Shapely.

(** * pandas and geopandas: the two tables *)

Module Pandas.

(** [pd.notna] on a float cell. *)
Definition notna (v : float) : bool := negb (is_nan v).

(** A row handed out by [iterrows]: the column labels and the cells. *)
Record Series : Type := mkSeries { index : list string; values : list float }.

(** The readings table of [read_csv]: a short line is padded with NaN. *)
Record DataFrame : Type := mkDataFrame {
  columns : list string;
  data : list (list float)
}.

Definition iterrows (df : DataFrame) : list Series :=
  map (mkSeries (columns df)) (data df).

Fixpoint loc (labels : list string) (cells : list float) (key : string)
  : result float :=
  match labels with
  | [] => Raise (KeyError key)
  | label :: labels' =>
      if label =? key then Ok (hd nan cells) else loc labels' (tl cells) key
  end.

(** [row[key]] *)
Definition getitem (row : Series) (key : string) : result float :=
  loc (index row) (values row) key.

(** A row of the boundary table: the cell of the district-name column and
    the geometry. *)
Record Feature (G : Type) : Type := mkFeature { name : string; geometry : G }.
Arguments mkFeature {G} name geometry.
Arguments name {G} f.
Arguments geometry {G} f.

(** The boundary table of [gpd.read_file]: its column labels, and its rows
    seen through the district-name column the script selects. *)
Record GeoDataFrame (G : Type) : Type := mkGeoDataFrame {
  gcolumns : list string;
  features : list (Feature G)
}.
Arguments mkGeoDataFrame {G} gcolumns features.
Arguments gcolumns {G} g.
Arguments features {G} g.

End Pandas.

Import Pandas.

(** How a run of a script ends. *)
Inductive Outcome (A : Type) : Type :=
| Finished (stdout : list string) (artifact : A)
    (** ran to the end: what was printed and what was saved *)
| Exited (stdout : list string) (code : Z)
    (** [exit(code)] after printing *)
| Uncaught (e : exn)
    (** an exception reached the top level: traceback, nothing saved *).
Arguments Finished {A} stdout artifact.
Arguments Exited {A} stdout code.
Arguments Uncaught {A} e.

(** * main.py: the toggle map *)

Module Main.

Definition required_cols : list string := ["Lat1"; "Long1"; "Lat2"; "Long2"].

(** [next((col for col in ['district', 'DISTRICT'] if col in districts.columns), None)] *)
Definition district_name_col {G : Type} (districts : GeoDataFrame G)
  : option string :=
  find (contains_str (gcolumns districts)) ["district"; "DISTRICT"].

(** [districts[district_name_col] = districts[district_name_col].str.title()] *)
Definition standardize {G : Type} (rows : list (Feature G)) : list (Feature G) :=
  map (fun row => mkFeature (title (name row)) (geometry row)) rows.

(** A [folium.CircleMarker]; radius, fill and opacity are the same for
    every marker and are left out. *)
Record CircleMarker : Type := mkMarker {
  location : float * float;
  popup : string;
  color : string
}.

(** The markers held by the three feature groups, in the order added. *)
Record FeatureGroups : Type := mkGroups {
  districts_fg : list CircleMarker;
  imd_fg : list CircleMarker;
  rahat_fg : list CircleMarker
}.

Definition no_markers : FeatureGroups := mkGroups [] [] [].

Section Classification.
Context {G : Type} `{Geometry G}.
Variable districts : list (Feature G).

Fixpoint scan (rows : list (Feature G)) (point : Point) : string :=
  match rows with
  | [] => "District out of UP"
  | row :: rest =>
      if contains (geometry row) point then title (name row)
      else scan rest point
  end.

Definition get_district_name (lat lon : float) : string :=
  if negb (((-90) <=? lat) && (lat <=? 90)
           && ((-180) <=? lon) && (lon <=? 180))%float
  then "Invalid Coordinates"
  else scan districts (mkPoint lon lat).

(** Body of the loop "Add IMD markers". *)
Definition imd_body (row : Series) (fg : FeatureGroups) : result FeatureGroups :=
  lat1 <- getitem row "Lat1" ;;
  if notna lat1 then
    long1 <- getitem row "Long1" ;;
    if notna long1 then
      let district := get_district_name lat1 long1 in
      if negb (contains_str ["District out of UP"; "Invalid Coordinates"] district)
      then
        let marker := mkMarker (lat1, long1)
                        ("District: " ++ district ++ "<br>Type: IMD") "green" in
        Ok (mkGroups (districts_fg fg ++ [marker]) (imd_fg fg ++ [marker])
                     (rahat_fg fg))
      else Ok fg
    else Ok fg
  else Ok fg.

(** Body of the loop "Add Rahat markers". *)
Definition rahat_body (row : Series) (fg : FeatureGroups) : result FeatureGroups :=
  lat2 <- getitem row "Lat2" ;;
  if notna lat2 then
    long2 <- getitem row "Long2" ;;
    if notna long2 then
      let district := get_district_name lat2 long2 in
      if negb (contains_str ["District out of UP"; "Invalid Coordinates"] district)
      then
        let marker := mkMarker (lat2, long2)
                        ("District: " ++ district ++ "<br>Type: Rahat") "orange" in
        Ok (mkGroups (districts_fg fg ++ [marker]) (imd_fg fg)
                     (rahat_fg fg ++ [marker]))
      else Ok fg
    else Ok fg
  else Ok fg.

Definition add_markers (rows : list Series) (fg : FeatureGroups)
  : result FeatureGroups :=
  fg' <- for_each imd_body rows fg ;;
  for_each rahat_body rows fg'.

End Classification.

(** The script from the column check on; the artifact is the saved map,
    seen as the markers of its three feature groups. *)
Definition run {G : Type} `{Geometry G}
           (districts : GeoDataFrame G) (data : DataFrame) : Outcome FeatureGroups :=
  if negb (forallb (contains_str (columns data)) required_cols) then
    Exited ["Error: CSV must contain columns: ['Lat1', 'Long1', 'Lat2', 'Long2']"] 1
  else
    match district_name_col districts with
    | None =>
        Exited ["Error: No 'district' or 'DISTRICT' column found in GeoJSON."] 1
    | Some _ =>
        match add_markers (standardize (features districts)) (iterrows data)
                          no_markers with
        | Ok fg =>
            Finished ["âœ… Custom toggle map saved as 'custom_control_map.html'"] fg
        | Raise e => Uncaught e
        end
    end.

End Main.

(** * terra.py: the spreadsheet of counts *)

Module Terra.

(** The inner dictionary [{'Green': n, 'Red': m}]. *)
Record Counts : Type := mkCounts { Green : nat; Red : nat }.

(** ['district' if 'district' in districts.columns else 'DISTRICT'] *)
Definition district_name_col {G : Type} (districts : GeoDataFrame G) : string :=
  if contains_str (gcolumns districts) "district" then "district" else "DISTRICT".

(** [districts[district_name_col]] *)
Definition name_column {G : Type} (districts : GeoDataFrame G)
  : result (list string) :=
  let col := district_name_col districts in
  if contains_str (gcolumns districts) col then Ok (map name (features districts))
  else Raise (KeyError col).

(** [{district: {'Green': 0, 'Red': 0} for district in ...}] *)
Definition new_counts (names : list string) : dict Counts :=
  fold_left (fun d district => dict_set d district (mkCounts 0 0)) names [].

Section Classification.
Context {G : Type} `{Geometry G}.
Variable districts : list (Feature G).

Fixpoint scan (rows : list (Feature G)) (point : Point) : option string :=
  match rows with
  | [] => None
  | row :: rest =>
      if contains (geometry row) point then Some (name row)
      else scan rest point
  end.

Definition get_district_name (lat lon : float) : option string :=
  scan districts (mkPoint lon lat).

(** [counts[district]['Green'] += 1] *)
Definition add_green (counts : dict Counts) (district : string)
  : result (dict Counts) :=
  inner <- dict_get counts district ;;
  Ok (dict_set counts district (mkCounts (Green inner + 1) (Red inner))).

(** [counts[district]['Red'] += 1] *)
Definition add_red (counts : dict Counts) (district : string)
  : result (dict Counts) :=
  inner <- dict_get counts district ;;
  Ok (dict_set counts district (mkCounts (Green inner) (Red inner + 1))).

(** Body of the loop "Count green markers (Lat1/Long1)". *)
Definition green_body (row : Series) (counts : dict Counts)
  : result (dict Counts) :=
  lat1 <- getitem row "Lat1" ;;
  if notna lat1 then
    long1 <- getitem row "Long1" ;;
    if notna long1 then
      let district := get_district_name lat1 long1 in
      if truthy district then
        match district with
        | Some d => add_green counts d
        | None => Ok counts
        end
      else Ok counts
    else Ok counts
  else Ok counts.

(** Body of the loop "Count red markers (Lat2/Long2)". *)
Definition red_body (row : Series) (counts : dict Counts)
  : result (dict Counts) :=
  lat2 <- getitem row "Lat2" ;;
  if notna lat2 then
    long2 <- getitem row "Long2" ;;
    if notna long2 then
      let district := get_district_name lat2 long2 in
      if truthy district then
        match district with
        | Some d => add_red counts d
        | None => Ok counts
        end
      else Ok counts
    else Ok counts
  else Ok counts.

Definition count_markers (rows : list Series) (counts : dict Counts)
  : result (dict Counts) :=
  counts' <- for_each green_body rows counts ;;
  for_each red_body rows counts'.

End Classification.

(** A row of [output_df]. *)
Record OutputRow : Type := mkOutputRow {
  District : string;
  Green_Markers : nat;
  Red_Markers : nat
}.

Definition output_df (counts : dict Counts) : list OutputRow :=
  map (fun item => mkOutputRow (fst item) (Green (snd item)) (Red (snd item)))
      counts.

(** The whole script; the artifact is the table written to
    [district_marker_counts.xlsx]. *)
Definition run {G : Type} `{Geometry G}
           (districts : GeoDataFrame G) (data : DataFrame) : Outcome (list OutputRow) :=
  match name_column districts with
  | Raise e => Uncaught e
  | Ok names =>
      match count_markers (features districts) (iterrows data)
                          (new_counts names) with
      | Raise e => Uncaught e
      | Ok counts =>
          Finished ["✅ Excel file 'district_marker_counts.xlsx' has been created."]
                   (output_df counts)
      end
  end.

End Terra.

(** * The result type of the specification *)

Inductive ClassificationResult : Type :=
| RegionName (region : string)
| OutOfRegion
| InvalidCoordinate.

(** The strings returned by [main.py], read as classification results. *)
Definition result_of_main (district : string) : ClassificationResult :=
  if district =? "Invalid Coordinates" then InvalidCoordinate
  else if district =? "District out of UP" then OutOfRegion
  else RegionName district.

(** The values returned by [terra.py], read as classification results. *)
Definition result_of_terra (district : option string) : ClassificationResult :=
  match district with
  | Some region => RegionName region
  | None => OutOfRegion
  end.

(** [|lat| > 90 or |lon| > 180] *)
Definition out_of_range (lat lon : float) : bool :=
  ((90 <? abs lat) || (180 <? abs lon))%float.

(** [-90 <= lat <= 90 and -180 <= lon <= 180] *)
Definition valid_pair (lat lon : float) : bool :=
  (((-90) <=? lat) && (lat <=? 90) && ((-180) <=? lon) && (lon <=? 180))%float.

(** The results the aggregation drops. *)
Definition rejected (r : ClassificationResult) : Prop :=
  r = OutOfRegion \/ r = InvalidCoordinate.

(** A row that a loop passes over: the body hands the state back unchanged
    without raising, and the loop ends as it does on the rows without it. *)
Definition leaves_no_trace {R S : Type} (body : R -> S -> result S) (row : R) : Prop :=
  (forall s, body row s = Ok s)
  /\ (forall before after s,
        for_each body (before ++ row :: after) s = for_each body (before ++ after) s).

(** The dictionaries [counts] goes through in a run of [terra.py]. *)
Inductive reachable {G : Type} `{Geometry G} (districts : GeoDataFrame G)
  : dict Terra.Counts -> Prop :=
| reach_new names :
    Terra.name_column districts = Ok names ->
    reachable districts (Terra.new_counts names)
| reach_green row counts counts' :
    reachable districts counts ->
    Terra.green_body (features districts) row counts = Ok counts' ->
    reachable districts counts'
| reach_red row counts counts' :
    reachable districts counts ->
    Terra.red_body (features districts) row counts = Ok counts' ->
    reachable districts counts'.

(** No pair of the table is counted under the district [k]. *)
Definition unvisited {G : Type} `{Geometry G}
           (districts : GeoDataFrame G) (data : DataFrame) (k : string) : Prop :=
  forall row lat lon,
    In row (iterrows data) ->
    notna lat = true -> notna lon = true ->
    (getitem row "Lat1" = Ok lat /\ getitem row "Long1" = Ok lon)
    \/ (getitem row "Lat2" = Ok lat /\ getitem row "Long2" = Ok lon) ->
    Terra.get_district_name (features districts) lat lon <> Some k.

(** * The counting loops of terra.py, seen as events *)

Section Events.
Context {G : Type} `{Geometry G}.
Variable districts : list (Feature G).

(** The district under which a loop counts the pair of a row read from the
    columns [latc] and [lonc]: none when a cell is NaN or when the lookup
    answers [None] or ['']. *)
Definition pair_event (row : Series) (latc lonc : string) : result (option string) :=
  lat <- getitem row latc ;;
  if notna lat then
    lon <- getitem row lonc ;;
    if notna lon then
      let district := Terra.get_district_name districts lat lon in
      Ok (if truthy district then district else None)
    else Ok None
  else Ok None.

(** [counts[district][colour] += 1], for the colour that [f] bumps. *)
Definition bump (f : Terra.Counts -> Terra.Counts)
           (counts : dict Terra.Counts) (district : string)
  : result (dict Terra.Counts) :=
  inner <- dict_get counts district ;;
  Ok (dict_set counts district (f inner)).

Definition record (f : Terra.Counts -> Terra.Counts)
           (counts : dict Terra.Counts) (event : option string)
  : result (dict Terra.Counts) :=
  match event with
  | Some district => bump f counts district
  | None => Ok counts
  end.

Definition event_body (latc lonc : string) (f : Terra.Counts -> Terra.Counts)
           (row : Series) (counts : dict Terra.Counts)
  : result (dict Terra.Counts) :=
  Py.bind (pair_event row latc lonc) (record f counts).

Definition bump_green (inner : Terra.Counts) : Terra.Counts :=
  Terra.mkCounts (Terra.Green inner + 1) (Terra.Red inner).

Definition bump_red (inner : Terra.Counts) : Terra.Counts :=
  Terra.mkCounts (Terra.Green inner) (Terra.Red inner + 1).

(** Every name of the boundary table is a key. *)
Definition covers_names (counts : dict Terra.Counts) : Prop :=
  forall n, In n (map name districts) -> In n (keys counts).

End Events.

(** * scalp.py: the map with one pair of layers per district *)

Module Scalp.

Definition required_cols : list string := ["Lat1"; "Long1"; "Lat2"; "Long2"].

(** [next((col for col in ['district', 'DISTRICT'] if col in districts.columns), None)] *)
Definition district_name_col {G : Type} (districts : GeoDataFrame G)
  : option string :=
  find (contains_str (gcolumns districts)) ["district"; "DISTRICT"].

(** [districts[district_name_col] = districts[district_name_col].str.title()] *)
Definition standardize {G : Type} (rows : list (Feature G)) : list (Feature G) :=
  map (fun row => mkFeature (title (name row)) (geometry row)) rows.

(** An entry of [district_groups]: the markers held by the two feature
    groups of a district, and the names the groups were created with. *)
Record Layers : Type := mkLayers {
  IMD : list Main.CircleMarker;
  Rahat : list Main.CircleMarker;
  IMD_name : string;
  Rahat_name : string
}.

(** [district_groups] and [active_districts].  The set is kept as a list
    without repetitions; it is only ever read through [sorted]. *)
Record State : Type := mkState {
  district_groups : dict Layers;
  active_districts : list string
}.

Definition initial : State := mkState [] [].

(** [active_districts.add(district)] *)
Definition set_add (s : list string) (district : string) : list string :=
  if contains_str s district then s else s ++ [district].

(** [sorted] on strings: code-point order, a prefix before its extensions. *)
Fixpoint insert_sorted (x : string) (l : list string) : list string :=
  match l with
  | [] => [x]
  | y :: rest => if String.leb x y then x :: y :: rest else y :: insert_sorted x rest
  end.

Definition sorted (l : list string) : list string := fold_right insert_sorted [] l.

Section Classification.
Context {G : Type} `{Geometry G}.
Variable districts : list (Feature G).

Fixpoint scan (rows : list (Feature G)) (point : Point) : string :=
  match rows with
  | [] => "District out of UP"
  | row :: rest =>
      if contains (geometry row) point then title (name row)
      else scan rest point
  end.

Definition get_district_name (lat lon : float) : string :=
  if negb (((-90) <=? lat) && (lat <=? 90)
           && ((-180) <=? lon) && (lon <=? 180))%float
  then "Invalid Coordinates"
  else scan districts (mkPoint lon lat).

(** [if district not in district_groups: district_groups[district] = {...}] *)
Definition ensure_groups (groups : dict Layers) (district : string) : dict Layers :=
  if negb (contains_str (keys groups) district) then
    dict_set groups district
             (mkLayers [] [] ("IMD - " ++ district) ("Rahat - " ++ district))
  else groups.

(** Body of the loop "Add IMD markers". *)
Definition imd_body (row : Series) (st : State) : result State :=
  lat1 <- getitem row "Lat1" ;;
  if notna lat1 then
    long1 <- getitem row "Long1" ;;
    if notna long1 then
      let district := get_district_name lat1 long1 in
      if negb (contains_str ["District out of UP"; "Invalid Coordinates"] district)
      then
        let groups := ensure_groups (district_groups st) district in
        let marker := Main.mkMarker (lat1, long1)
                        ("District: " ++ district ++ "<br>Type: IMD") "green" in
        layers <- dict_get groups district ;;
        Ok (mkState
              (dict_set groups district
                        (mkLayers (IMD layers ++ [marker]) (Rahat layers)
                                  (IMD_name layers) (Rahat_name layers)))
              (set_add (active_districts st) district))
      else Ok st
    else Ok st
  else Ok st.

(** Body of the loop "Add Rahat markers". *)
Definition rahat_body (row : Series) (st : State) : result State :=
  lat2 <- getitem row "Lat2" ;;
  if notna lat2 then
    long2 <- getitem row "Long2" ;;
    if notna long2 then
      let district := get_district_name lat2 long2 in
      if negb (contains_str ["District out of UP"; "Invalid Coordinates"] district)
      then
        let groups := ensure_groups (district_groups st) district in
        let marker := Main.mkMarker (lat2, long2)
                        ("District: " ++ district ++ "<br>Type: Rahat") "orange" in
        layers <- dict_get groups district ;;
        Ok (mkState
              (dict_set groups district
                        (mkLayers (IMD layers) (Rahat layers ++ [marker])
                                  (IMD_name layers) (Rahat_name layers)))
              (set_add (active_districts st) district))
      else Ok st
    else Ok st
  else Ok st.

Definition add_markers (rows : list Series) (st : State) : result State :=
  st' <- for_each imd_body rows st ;;
  for_each rahat_body rows st'.

End Classification.

(** The loop "Add to map & build JS layer name map": what it leaves in
    [layer_name_map]. *)
Definition layer_name_map (groups : dict Layers) : dict (list string) :=
  fold_left (fun m item => dict_set m (fst item)
                                    [IMD_name (snd item); Rahat_name (snd item)])
            groups [].

(** What the saved page is built from: the layers per district, the layer
    names handed to the filter script, and the entries of the dropdown. *)
Record Page : Type := mkPage {
  layers : dict Layers;
  layer_names : dict (list string);
  district_list : list string
}.

(** The script from the column check on. *)
Definition run {G : Type} `{Geometry G}
           (districts : GeoDataFrame G) (data : DataFrame) : Outcome Page :=
  if negb (forallb (contains_str (columns data)) required_cols) then
    Exited ["Error: CSV must contain columns: ['Lat1', 'Long1', 'Lat2', 'Long2']"] 1
  else
    match district_name_col districts with
    | None =>
        Exited ["Error: No 'district' or 'DISTRICT' column found in GeoJSON."] 1
    | Some _ =>
        match add_markers (standardize (features districts)) (iterrows data)
                          initial with
        | Ok st =>
            Finished ["✅ Map saved as 'ttsx.html'"]
                     (mkPage (district_groups st)
                             (layer_name_map (district_groups st))
                             ("All Districts" :: sorted (active_districts st)))
        | Raise e => Uncaught e
        end
    end.

End Scalp.

(** * Names in ASCII *)

(** The text on which [title] is [str.title]: every byte is below 128. *)
Fixpoint is_ascii (s : string) : bool :=
  match s with
  | EmptyString => true
  | String c rest => (nat_of_ascii c <? 128)%nat && is_ascii rest
  end.

(** Every district name of the table is ASCII text. *)
Definition ascii_names {G : Type} (rows : list (Feature G)) : Prop :=
  Forall (fun row => is_ascii (name row) = true) rows.

(** * Vocabulary of the further properties *)

(** The four columns are among the labels of the readings table. *)
Definition has_reading_columns (data : DataFrame) : Prop :=
  Forall (fun col => In col (columns data)) ["Lat1"; "Long1"; "Lat2"; "Long2"].

(** The boundary table has one of the two district-name columns. *)
Definition has_name_column {G : Type} (districts : GeoDataFrame G) : Prop :=
  In "district" (gcolumns districts) \/ In "DISTRICT" (gcolumns districts).

(** A marker as a loop of [main.py] builds it for a pair it keeps: it sits
    on a pair of non-NaN cells in range, strictly inside the polygon of a
    row of [districts], and its popup shows that row's name in title case
    and the [kind] of sensor. *)
Definition placed {G : Type} `{Geometry G} (districts : list (Feature G))
           (kind colour : string) (m : Main.CircleMarker) : Prop :=
  exists lat lon r,
    Main.location m = (lat, lon)
    /\ notna lat = true /\ notna lon = true /\ valid_pair lat lon = true
    /\ In r districts /\ contains (geometry r) (mkPoint lon lat) = true
    /\ Main.popup m = "District: " ++ title (name r) ++ "<br>Type: " ++ kind
    /\ Main.color m = colour.


(** The pair of a row is counted under some district. *)
Definition happened (event : result (option string)) : bool :=
  match event with
  | Ok (Some _) => true
  | _ => false
  end.

(** The names of a column in the order of their first occurrence. *)
Fixpoint unique (names : list string) : list string :=
  match names with
  | [] => []
  | n :: rest => n :: filter (fun n' => negb (n' =? n)) (unique rest)
  end.

(** The sum of the Green column and of the Red column. *)
Definition total_green (counts : dict Terra.Counts) : nat :=
  list_sum (map (fun item => Terra.Green (snd item)) counts).

Definition total_red (counts : dict Terra.Counts) : nat :=
  list_sum (map (fun item => Terra.Red (snd item)) counts).

(** A marker of the layer of [district]: placed as [main.py] places it, with
    the district in its popup. *)
Definition layer_marker {G : Type} `{Geometry G} (districts : list (Feature G))
           (district kind colour : string) (m : Main.CircleMarker) : Prop :=
  placed districts kind colour m
  /\ Main.popup m = "District: " ++ district ++ "<br>Type: " ++ kind.

(** An entry of [district_groups] as the loops of [scalp.py] keep it. *)
Definition layers_wf {G : Type} `{Geometry G} (districts : list (Feature G))
           (district : string) (g : Scalp.Layers) : Prop :=
  Scalp.IMD_name g = "IMD - " ++ district
  /\ Scalp.Rahat_name g = "Rahat - " ++ district
  /\ (Scalp.IMD g ++ Scalp.Rahat g)%list <> []
  /\ Forall (layer_marker districts district "IMD" "green") (Scalp.IMD g)
  /\ Forall (layer_marker districts district "Rahat" "orange") (Scalp.Rahat g)
  /\ (exists r, In r districts /\ district = title (name r))
  /\ district <> "District out of UP" /\ district <> "Invalid Coordinates".

(** What the loops of [scalp.py] keep true of their two collections. *)
Definition scalp_inv {G : Type} `{Geometry G} (districts : list (Feature G))
           (st : Scalp.State) : Prop :=
  NoDup (keys (Scalp.district_groups st))
  /\ NoDup (Scalp.active_districts st)
  /\ (forall d, In d (Scalp.active_districts st) <-> In d (keys (Scalp.district_groups st)))
  /\ (forall d g, In (d, g) (Scalp.district_groups st) -> layers_wf districts d g).

(** An entry of [district_groups] before a marker is added to it: as
    [layers_wf], but its layers may still be empty. *)
Definition layers_pre {G : Type} `{Geometry G} (districts : list (Feature G))
           (district : string) (g : Scalp.Layers) : Prop :=
  Scalp.IMD_name g = "IMD - " ++ district
  /\ Scalp.Rahat_name g = "Rahat - " ++ district
  /\ Forall (layer_marker districts district "IMD" "green") (Scalp.IMD g)
  /\ Forall (layer_marker districts district "Rahat" "orange") (Scalp.Rahat g).

(** The three statements by which a loop of [scalp.py] files a marker under
    a district, [update] being the [add_to] of the loop. *)
Definition with_marker (update : Scalp.Layers -> Scalp.Layers)
           (st : Scalp.State) (district : string) : result Scalp.State :=
  let groups := Scalp.ensure_groups (Scalp.district_groups st) district in
  layers <- dict_get groups district ;;
  Ok (Scalp.mkState (dict_set groups district (update layers))
                    (Scalp.set_add (Scalp.active_districts st) district)).

Definition add_imd (m : Main.CircleMarker) (g : Scalp.Layers) : Scalp.Layers :=
  Scalp.mkLayers (Scalp.IMD g ++ [m]) (Scalp.Rahat g)
                 (Scalp.IMD_name g) (Scalp.Rahat_name g).

Definition add_rahat (m : Main.CircleMarker) (g : Scalp.Layers) : Scalp.Layers :=
  Scalp.mkLayers (Scalp.IMD g) (Scalp.Rahat g ++ [m])
                 (Scalp.IMD_name g) (Scalp.Rahat_name g).

(** All markers of the IMD layers, and of the Rahat layers. *)
Definition all_imd (groups : dict Scalp.Layers) : list Main.CircleMarker :=
  flat_map (fun item => Scalp.IMD (snd item)) groups.

Definition all_rahat (groups : dict Scalp.Layers) : list Main.CircleMarker :=
  flat_map (fun item => Scalp.Rahat (snd item)) groups.

(** What a loop body does with a row: it leaves the state alone, or it
    stops on a missing column, or it files one marker under a district. *)
Definition body_cases {G : Type} `{Geometry G} (districts : list (Feature G))
           (body : Series -> Scalp.State -> result Scalp.State)
           (latc lonc kind colour : string)
           (add : Main.CircleMarker -> Scalp.Layers -> Scalp.Layers)
           (on_main : Series -> Main.FeatureGroups -> result Main.FeatureGroups)
           (push : Main.CircleMarker -> Main.FeatureGroups -> Main.FeatureGroups) : Prop :=
  forall row st fg,
    (body row st = Ok st /\ on_main row fg = Ok fg)
    \/ (exists e, body row st = Raise e /\ on_main row fg = Raise e
                  /\ ~ (In latc (index row) /\ In lonc (index row)))
    \/ (exists d m,
           layer_marker districts d kind colour m
           /\ (exists r, In r districts /\ d = title (name r))
           /\ d <> "District out of UP" /\ d <> "Invalid Coordinates"
           /\ body row st = with_marker (add m) st d
           /\ on_main row fg = Ok (push m fg)).

(** The markers of the layers of [scalp.py] are those of the groups of
    [main.py], up to their order. *)
Definition same_markers (st : Scalp.State) (fg : Main.FeatureGroups) : Prop :=
  Permutation (all_imd (Scalp.district_groups st)) (Main.imd_fg fg)
  /\ Permutation (all_rahat (Scalp.district_groups st)) (Main.rahat_fg fg).

(** The marker a loop of [main.py] adds for a row, read from the columns
    [latc] and [lonc]: one marker when both cells are there and not NaN and
    the answer of [get_district_name] is not a sentinel, none otherwise. *)
Definition kept_marker {G : Type} `{Geometry G} (districts : list (Feature G))
           (latc lonc kind colour : string) (row : Series)
  : list Main.CircleMarker :=
  match getitem row latc, getitem row lonc with
  | Ok lat, Ok lon =>
      let district := Main.get_district_name districts lat lon in
      if notna lat && notna lon
         && negb (contains_str ["District out of UP"; "Invalid Coordinates"] district)
      then [Main.mkMarker (lat, lon)
                          ("District: " ++ district ++ "<br>Type: " ++ kind) colour]
      else []
  | _, _ => []
  end.

(** A marker that comes from a reading of the table: it sits on the pair
    that some row holds in the columns [latc] and [lonc], both cells not
    NaN and in range, strictly inside the polygon of the row of [districts]
    whose title-cased name [get_district_name] answers and the popup
    shows. *)
Definition placed_from {G : Type} `{Geometry G} (districts : list (Feature G))
           (data : DataFrame) (latc lonc kind colour : string)
           (m : Main.CircleMarker) : Prop :=
  exists row lat lon r,
    In row (iterrows data)
    /\ getitem row latc = Ok lat /\ getitem row lonc = Ok lon
    /\ Main.location m = (lat, lon)
    /\ notna lat = true /\ notna lon = true /\ valid_pair lat lon = true
    /\ In r districts /\ contains (geometry r) (mkPoint lon lat) = true
    /\ Main.get_district_name districts lat lon = title (name r)
    /\ Main.popup m = "District: " ++ title (name r) ++ "<br>Type: " ++ kind
    /\ Main.color m = colour.

(** * Worked inputs *)

Definition lucknow_box : Box := box 80 26 81 27.

Definition lucknow : GeoDataFrame Box :=
  mkGeoDataFrame ["DISTRICT"; "geometry"] [mkFeature "LUCKNOW" lucknow_box].

(** A boundary row whose rectangle reaches beyond latitude 90. *)
Definition polar : GeoDataFrame Box :=
  mkGeoDataFrame ["district"; "geometry"] [mkFeature "Polar" (box (-10) 80 10 100)].

(** Two overlapping rectangles and a third one apart from them. *)
Definition overlapping : GeoDataFrame Box :=
  mkGeoDataFrame ["district"; "geometry"]
    [mkFeature "agra" (box 77 26 79 28);
     mkFeature "mathura" (box 78 27 80 29);
     mkFeature "etah" (box 90 10 91 11)].

(** A line of [data.csv] under the header [Lat1,Long1,Lat2,Long2]. *)
Definition reading (lat1 long1 lat2 long2 : float) : list float :=
  [lat1; long1; lat2; long2].

Definition readings (rows : list (list float)) : DataFrame :=
  mkDataFrame ["Lat1"; "Long1"; "Lat2"; "Long2"] rows.

(** * Worked runs *)

Example title_example : title "uttar pradesh-WEST x2y" = "Uttar Pradesh-West X2Y".
Proof. reflexivity. Qed.

Example terra_example :
  Terra.run overlapping (readings [reading 27.5 78.5 nan 78.5; reading 95 78.5 28.5 79.5])
  = Finished ["✅ Excel file 'district_marker_counts.xlsx' has been created."]
      [Terra.mkOutputRow "agra" 1 0; Terra.mkOutputRow "mathura" 0 1;
       Terra.mkOutputRow "etah" 0 0].
Proof. vm_compute. reflexivity. Qed.

Example main_example :
  Main.run lucknow (readings [reading 26.5 80.5 26.5 80; reading 95 80.5 nan nan])
  = Finished ["âœ… Custom toggle map saved as 'custom_control_map.html'"]
      (let m := Main.mkMarker (26.5, 80.5)%float "District: Lucknow<br>Type: IMD" "green" in
       Main.mkGroups [m] [m] []).
Proof. vm_compute. reflexivity. Qed.

Example scalp_example :
  Scalp.run overlapping
            (readings [reading 28.5 79.5 27.5 78.5; reading 27.5 78.5 95 78.5])
  = Finished ["✅ Map saved as 'ttsx.html'"]
      (Scalp.mkPage
         [("Mathura",
           Scalp.mkLayers
             [Main.mkMarker (28.5, 79.5)%float "District: Mathura<br>Type: IMD" "green"]
             [] "IMD - Mathura" "Rahat - Mathura");
          ("Agra",
           Scalp.mkLayers
             [Main.mkMarker (27.5, 78.5)%float "District: Agra<br>Type: IMD" "green"]
             [Main.mkMarker (27.5, 78.5)%float "District: Agra<br>Type: Rahat" "orange"]
             "IMD - Agra" "Rahat - Agra")]
         [("Mathura", ["IMD - Mathura"; "Rahat - Mathura"]);
          ("Agra", ["IMD - Agra"; "Rahat - Agra"])]
         ["All Districts"; "Agra"; "Mathura"]).
Proof. vm_compute. reflexivity. Qed.

(** * Facts about the Python layer *)

Lemma bind_assoc {A B C : Type} (m : result A) (f : A -> result B) (g : B -> result C) :
  Py.bind (Py.bind m f) g = Py.bind m (fun a => Py.bind (f a) g).
Proof. destruct m; reflexivity. Qed.

Lemma for_each_app {R S : Type} (body : R -> S -> result S) (l1 l2 : list R) (s : S) :
  for_each body (l1 ++ l2) s = Py.bind (for_each body l1 s) (for_each body l2).
Proof.
  revert s; induction l1 as [|r l1 IH]; intros s; simpl; [reflexivity|].
  destruct (body r s); simpl; auto.
Qed.

Ltac each_ascii c := destruct c as [[] [] [] [] [] [] [] []]; reflexivity.

Lemma lower_lower (c : ascii) : lower (lower c) = lower c.
Proof. each_ascii c. Qed.

Lemma upper_upper (c : ascii) : upper (upper c) = upper c.
Proof. each_ascii c. Qed.

Lemma is_cased_lower (c : ascii) : is_cased (lower c) = is_cased c.
Proof. each_ascii c. Qed.

Lemma is_cased_upper (c : ascii) : is_cased (upper c) = is_cased c.
Proof. each_ascii c. Qed.

Lemma title_from_idempotent (s : string) :
  forall b, title_from b (title_from b s) = title_from b s.
Proof.
  induction s as [|c s IH]; intros b; simpl; [reflexivity|].
  destruct b.
  - rewrite lower_lower, is_cased_lower, IH; reflexivity.
  - rewrite upper_upper, is_cased_upper, IH; reflexivity.
Qed.

Lemma title_idempotent (s : string) : title (title s) = title s.
Proof. apply title_from_idempotent. Qed.

(** * Facts about float comparisons *)

Lemma SFcompare_Lt_Gt (a b : spec_float) :
  SFcompare a b = Some Lt -> SFcompare b a = Some Gt.
Proof.
  destruct a as [[]|[]| |[] m e], b as [[]|[]| |[] m' e']; simpl; try congruence;
    rewrite (Z.compare_antisym e e'), !Pos.compare_cont_spec,
      (Pos.compare_antisym m m');
    destruct (e ?= e')%Z; simpl; try congruence;
    destruct (m ?= m')%positive; simpl; congruence.
Qed.

Lemma SFcompare_opp_Lt_Gt (a b : spec_float) :
  SFcompare a (SFopp b) = Some Lt -> SFcompare (SFopp a) b = Some Gt.
Proof.
  destruct a as [[]|[]| |[] m e], b as [[]|[]| |[] m' e']; simpl; try congruence;
    rewrite !Pos.compare_cont_spec;
    destruct (e ?= e')%Z; simpl; try congruence;
    destruct (m ?= m')%positive; simpl; congruence.
Qed.

Lemma SFabs_cases (a : spec_float) : SFabs a = a \/ SFabs a = SFopp a.
Proof. destruct a as [[]|[]| |[] m e]; simpl; auto. Qed.

(** A float beyond [bound] in absolute value fails [-bound <= v <= bound]. *)
Lemma beyond_bound (bound v : float) :
  (bound <? abs v)%float = true ->
  ((- bound <=? v) && (v <=? bound))%float = false.
Proof.
  rewrite ltb_spec, !leb_spec, abs_spec, opp_spec.
  unfold SFltb, SFleb. intros Hlt.
  destruct (SFcompare (Prim2SF bound) (SFabs (Prim2SF v))) as [[]|] eqn:E;
    try discriminate.
  destruct (SFabs_cases (Prim2SF v)) as [A|A]; rewrite A in E.
  - rewrite (SFcompare_Lt_Gt _ _ E). apply andb_false_r.
  - rewrite (SFcompare_opp_Lt_Gt _ _ E). reflexivity.
Qed.

Lemma out_of_range_not_valid (lat lon : float) :
  out_of_range lat lon = true -> valid_pair lat lon = false.
Proof.
  unfold out_of_range, valid_pair. intros Hout.
  apply orb_true_iff in Hout. destruct Hout as [Hlat|Hlon].
  - apply (beyond_bound 90) in Hlat.
    change (PrimFloat.opp 90) with (-90)%float in Hlat. rewrite Hlat. reflexivity.
  - apply (beyond_bound 180) in Hlon.
    change (PrimFloat.opp 180) with (-180)%float in Hlon.
    rewrite <- andb_assoc, Hlon. apply andb_false_r.
Qed.

(** * The linear scan *)

Section Scan.
Context {G : Type} `{Geometry G}.

Lemma main_get_district_name_valid (districts : list (Feature G)) (lat lon : float) :
  valid_pair lat lon = true ->
  Main.get_district_name districts lat lon = Main.scan districts (mkPoint lon lat).
Proof.
  intros Hv. unfold Main.get_district_name. fold (valid_pair lat lon).
  rewrite Hv. reflexivity.
Qed.

Lemma scan_first (before after : list (Feature G)) (r : Feature G) (p : Point) :
  (forall r', In r' before -> contains (geometry r') p = false) ->
  contains (geometry r) p = true ->
  Terra.scan (before ++ r :: after)%list p = Some (name r)
  /\ Main.scan (before ++ r :: after)%list p = title (name r).
Proof.
  intros Hbefore Hr. induction before as [|b before IH]; simpl.
  - rewrite Hr. auto.
  - rewrite (Hbefore b (or_introl eq_refl)). apply IH.
    intros r' Hin. apply Hbefore. right. exact Hin.
Qed.

Lemma scan_none (districts : list (Feature G)) (p : Point) :
  (forall r, In r districts -> contains (geometry r) p = false) ->
  Terra.scan districts p = None /\ Main.scan districts p = "District out of UP".
Proof.
  induction districts as [|b districts IH]; simpl; intros Hnone; [auto|].
  rewrite (Hnone b (or_introl eq_refl)). apply IH.
  intros r Hin. apply Hnone. right. exact Hin.
Qed.

(** Some row contains the point: the rows split at the first such row. *)
Lemma first_containing (districts : list (Feature G)) (p : Point) :
  (exists r, In r districts /\ contains (geometry r) p = true) ->
  exists before r after,
    districts = (before ++ r :: after)%list
    /\ (forall r', In r' before -> contains (geometry r') p = false)
    /\ contains (geometry r) p = true.
Proof.
  induction districts as [|b districts IH]; intros [r [Hin Hr]]; [destruct Hin|].
  destruct (contains (geometry b) p) eqn:Hb.
  - exists [], b, districts. repeat split; auto. intros r' [].
  - destruct IH as [before [r0 [after [Heq [Hbefore Hr0]]]]].
    + destruct Hin as [Heq|Hin]; [subst; congruence|]. exists r; auto.
    + exists (b :: before), r0, after. subst. repeat split; auto.
      intros r' [Heq|Hin']; [subst; exact Hb|auto].
Qed.

Lemma terra_scan_In (districts : list (Feature G)) (p : Point) (n : string) :
  Terra.scan districts p = Some n -> In n (map name districts).
Proof.
  induction districts as [|b districts IH]; simpl; [discriminate|].
  destruct (contains (geometry b) p).
  - intros [= <-]. left. reflexivity.
  - intros Hs. right. auto.
Qed.

Lemma main_scan_standardize (districts : list (Feature G)) (p : Point) :
  Main.scan (Main.standardize districts) p = Main.scan districts p.
Proof.
  induction districts as [|b districts IH]; simpl; [reflexivity|].
  rewrite title_idempotent, IH. reflexivity.
Qed.

End Scan.

(** * Classification *)

(** C1, as [main.py] and [scalp.py] implement it: a pair with [|lat| > 90] or
    [|lon| > 180] is answered with "Invalid Coordinates" whatever the
    boundary rows are; the answer does not depend on any polygon. *)
Theorem main_invalid_coordinates {G : Type} `{Geometry G}
        (districts : list (Feature G)) (lat lon : float) :
  out_of_range lat lon = true ->
  Main.get_district_name districts lat lon = "Invalid Coordinates"
  /\ result_of_main (Main.get_district_name districts lat lon) = InvalidCoordinate.
Proof.
  intros Hout. apply out_of_range_not_valid in Hout.
  unfold Main.get_district_name. fold (valid_pair lat lon). rewrite Hout.
  split; reflexivity.
Qed.

Lemma main_invalid_coordinates_witness :
  out_of_range 95 0 = true
  /\ contains (box (-10) 80 10 100) (mkPoint 0 95) = true
  /\ Main.get_district_name (features polar) 95 0 = "Invalid Coordinates".
Proof.
  split; [reflexivity|]. split; [reflexivity|].
  apply (main_invalid_coordinates (features polar) 95 0). reflexivity.
Defined.

(** C1 fails on [terra.py]: its [get_district_name] has no range check, so a
    pair with latitude 95 is looked up like any other and is given the
    district whose polygon contains it. *)
Lemma terra_out_of_range_pair_is_classified :
  out_of_range 95 0 = true
  /\ Terra.get_district_name (features polar) 95 0 = Some "Polar"
  /\ result_of_terra (Terra.get_district_name (features polar) 95 0)
     <> InvalidCoordinate.
Proof. split; [reflexivity|]. split; [reflexivity|]. discriminate. Qed.

(** C3, amended: a valid pair strictly inside some polygon is given, by both
    scripts, the name of the first row in table order whose polygon
    contains it; a pair that no polygon contains, on a boundary or not, is
    out of region. *)
Theorem lookup_reports_containing_region {G : Type} `{Geometry G}
        (districts : list (Feature G)) (lat lon : float) :
  valid_pair lat lon = true ->
  ((exists r, In r districts /\ contains (geometry r) (mkPoint lon lat) = true) ->
   exists before r after,
     districts = (before ++ r :: after)%list
     /\ (forall r', In r' before -> contains (geometry r') (mkPoint lon lat) = false)
     /\ contains (geometry r) (mkPoint lon lat) = true
     /\ Terra.get_district_name districts lat lon = Some (name r)
     /\ Main.get_district_name districts lat lon = title (name r))
  /\ ((forall r, In r districts -> contains (geometry r) (mkPoint lon lat) = false) ->
      Terra.get_district_name districts lat lon = None
      /\ Main.get_district_name districts lat lon = "District out of UP").
Proof.
  intros Hv. rewrite (main_get_district_name_valid _ _ _ Hv).
  unfold Terra.get_district_name. split.
  - intros Hex. apply first_containing in Hex.
    destruct Hex as [before [r [after [Heq [Hbefore Hr]]]]].
    exists before, r, after. split; [exact Heq|]. split; [exact Hbefore|].
    split; [exact Hr|]. subst districts. apply scan_first; assumption.
  - apply scan_none.
Qed.

Lemma lookup_reports_containing_region_witness :
  exists before r after,
    features overlapping = (before ++ r :: after)%list
    /\ (forall r', In r' before -> contains (geometry r') (mkPoint 78.5 27.5) = false)
    /\ contains (geometry r) (mkPoint 78.5 27.5) = true
    /\ Terra.get_district_name (features overlapping) 27.5 78.5 = Some (name r)
    /\ Main.get_district_name (features overlapping) 27.5 78.5 = title (name r).
Proof.
  apply (lookup_reports_containing_region (features overlapping) 27.5 78.5).
  - reflexivity.
  - exists (mkFeature "mathura" (box 78 27 80 29)). split.
    + right. left. reflexivity.
    + reflexivity.
Defined.

(** C3 fails as stated: the point (26.5, 80) lies on the western edge of the
    Lucknow rectangle, is a valid pair and is covered by the polygon, yet
    [contains] is false for it and both scripts report no district. *)
Lemma boundary_point_is_out_of_region :
  valid_pair 26.5 80 = true
  /\ covers lucknow_box (mkPoint 80 26.5) = true
  /\ Main.get_district_name (Main.standardize (features lucknow)) 26.5 80
     = "District out of UP"
  /\ Terra.get_district_name (features lucknow) 26.5 80 = None.
Proof. repeat split; reflexivity. Qed.

(** C4, amended: in [main.py], on a boundary table whose names are ASCII, a
    valid pair inside some polygon is given the name that the first
    containing row holds in the standardized table, which is in title case;
    the query title-cases again, which changes nothing on such names, so it
    answers the same on the table before and after standardization. *)
Theorem main_returns_standardized_name {G : Type} `{Geometry G}
        (raw : list (Feature G)) (lat lon : float) :
  ascii_names raw ->
  valid_pair lat lon = true ->
  (exists r, In r raw /\ contains (geometry r) (mkPoint lon lat) = true) ->
  (exists before r after,
     Main.standardize raw = (before ++ r :: after)%list
     /\ (forall r', In r' before -> contains (geometry r') (mkPoint lon lat) = false)
     /\ contains (geometry r) (mkPoint lon lat) = true
     /\ Main.get_district_name (Main.standardize raw) lat lon = name r
     /\ title (name r) = name r)
  /\ Main.get_district_name (Main.standardize raw) lat lon
     = Main.get_district_name raw lat lon.
Proof.
  intros _ Hv Hex. rewrite !(main_get_district_name_valid _ _ _ Hv).
  split; [|apply main_scan_standardize].
  apply first_containing in Hex.
  destruct Hex as [before [r [after [Heq [Hbefore Hr]]]]].
  exists (Main.standardize before), (mkFeature (title (name r)) (geometry r)),
    (Main.standardize after).
  subst raw. split; [|split; [|split; [exact Hr|split]]].
  - unfold Main.standardize. rewrite map_app. reflexivity.
  - intros r' Hin. unfold Main.standardize in Hin. apply in_map_iff in Hin.
    destruct Hin as [r0 [<- Hin]]. simpl. apply Hbefore. exact Hin.
  - rewrite main_scan_standardize. apply scan_first; assumption.
  - apply title_idempotent.
Qed.

Lemma main_returns_standardized_name_witness :
  Main.get_district_name (Main.standardize (features lucknow)) 26.5 80.5
  = Main.get_district_name (features lucknow) 26.5 80.5.
Proof.
  apply (main_returns_standardized_name (features lucknow) 26.5 80.5).
  - repeat constructor.
  - reflexivity.
  - exists (mkFeature "LUCKNOW" lucknow_box). split; [left|]; reflexivity.
Defined.

(** C4 fails as stated: [terra.py] never title-cases, its answer is the name
    as the boundary file spells it; and [main.py] title-cases inside the
    query, which answers in title case on the table that was not
    standardized. *)
Lemma title_case_is_not_once_at_construction :
  Terra.get_district_name (features lucknow) 26.5 80.5 = Some "LUCKNOW"
  /\ title "LUCKNOW" = "Lucknow"
  /\ Terra.get_district_name (features lucknow) 26.5 80.5 <> Some (title "LUCKNOW")
  /\ Main.get_district_name (features lucknow) 26.5 80.5 = "Lucknow".
Proof. repeat split; try reflexivity. discriminate. Qed.



(** * Facts about rows and dictionaries *)

Lemma contains_str_In (xs : list string) (x : string) :
  contains_str xs x = true <-> In x xs.
Proof.
  unfold contains_str. rewrite existsb_exists. split.
  - intros [y [Hin Heq]]. apply String.eqb_eq in Heq. subst. exact Hin.
  - intros Hin. exists x. split; [exact Hin|apply String.eqb_refl].
Qed.

Lemma loc_In (labels : list string) (cells : list float) (key : string) :
  In key labels -> exists v, loc labels cells key = Ok v.
Proof.
  revert cells. induction labels as [|l labels IH]; intros cells Hin; [destruct Hin|].
  simpl. destruct (String.eqb_spec l key) as [Heq|Hne]; [eauto|].
  destruct Hin as [Heq|Hin]; [contradiction|]. apply IH. exact Hin.
Qed.

Lemma loc_Raise (labels : list string) (cells : list float) (key : string) (e : exn) :
  loc labels cells key = Raise e -> e = KeyError key /\ ~ In key labels.
Proof.
  revert cells. induction labels as [|l labels IH]; intros cells; simpl.
  - intros [= <-]. auto.
  - destruct (String.eqb_spec l key) as [Heq|Hne]; [discriminate|].
    intros Hr. apply IH in Hr. destruct Hr as [He Hn]. split; [exact He|].
    intros [Heq|Hin]; contradiction.
Qed.

Lemma getitem_In (row : Series) (key : string) :
  In key (index row) -> exists v, getitem row key = Ok v.
Proof. apply loc_In. Qed.

Lemma getitem_Raise (row : Series) (key : string) (e : exn) :
  getitem row key = Raise e -> e = KeyError key /\ ~ In key (index row).
Proof. apply loc_Raise. Qed.

Lemma getitem_Ok_In (row : Series) (key : string) (v : float) :
  getitem row key = Ok v -> In key (index row).
Proof.
  unfold getitem. generalize (values row).
  induction (index row) as [|l labels IH]; intros cells; simpl; [discriminate|].
  destruct (String.eqb_spec l key) as [Heq|Hne]; [auto|].
  intros Hl. right. eapply IH. exact Hl.
Qed.

Section Dict.
Context {V : Type}.
Implicit Types (d : dict V) (k : string) (v : V).

Lemma dict_get_In_keys d k :
  In k (keys d) <-> exists v, dict_get d k = Ok v.
Proof.
  induction d as [|[k' v'] d IH]; simpl.
  - split; [intros []|intros [v Hv]; discriminate].
  - destruct (String.eqb_spec k' k) as [Heq|Hne].
    + split; eauto.
    + rewrite <- IH. split; [intros [Heq|Hin]; [contradiction|exact Hin]|auto].
Qed.

Lemma dict_get_set_same d k v :
  dict_get (dict_set d k v) k = Ok v.
Proof.
  induction d as [|[k' v'] d IH]; simpl.
  - rewrite String.eqb_refl. reflexivity.
  - destruct (String.eqb_spec k' k) as [Heq|Hne]; simpl.
    + subst. rewrite String.eqb_refl. reflexivity.
    + apply String.eqb_neq in Hne. rewrite Hne. exact IH.
Qed.

Lemma dict_get_set_other d k k' v :
  k <> k' -> dict_get (dict_set d k v) k' = dict_get d k'.
Proof.
  intros Hne. induction d as [|[k0 v0] d IH]; simpl.
  - apply String.eqb_neq in Hne. rewrite Hne. reflexivity.
  - destruct (String.eqb_spec k0 k) as [Heq|Hne0]; simpl.
    + subst k0. apply String.eqb_neq in Hne. rewrite Hne. reflexivity.
    + rewrite IH. reflexivity.
Qed.

Lemma keys_dict_set_present d k v :
  In k (keys d) -> keys (dict_set d k v) = keys d.
Proof.
  induction d as [|[k' v'] d IH]; simpl; [intros []|].
  destruct (String.eqb_spec k' k) as [Heq|Hne]; simpl; [reflexivity|].
  intros [Heq|Hin]; [contradiction|]. rewrite IH by exact Hin. reflexivity.
Qed.

Lemma keys_dict_set_absent d k v :
  ~ In k (keys d) -> keys (dict_set d k v) = (keys d ++ [k])%list.
Proof.
  induction d as [|[k' v'] d IH]; simpl; [reflexivity|].
  intros Hn. destruct (String.eqb_spec k' k) as [Heq|Hne]; simpl.
  - exfalso. apply Hn. left. exact Heq.
  - rewrite IH; [reflexivity|]. intros Hin. apply Hn. right. exact Hin.
Qed.

Lemma dict_set_comm d k1 k2 v1 v2 :
  k1 <> k2 -> In k1 (keys d) -> In k2 (keys d) ->
  dict_set (dict_set d k1 v1) k2 v2 = dict_set (dict_set d k2 v2) k1 v1.
Proof.
  intros Hne. induction d as [|[k v] d IH]; simpl; [intros []|].
  intros H1 H2.
  destruct (String.eqb_spec k k1) as [E1|N1], (String.eqb_spec k k2) as [E2|N2];
    simpl.
  - congruence.
  - subst k. rewrite String.eqb_refl. apply String.eqb_neq in N2. rewrite N2.
    reflexivity.
  - subst k. rewrite String.eqb_refl. apply String.eqb_neq in N1. rewrite N1.
    reflexivity.
  - pose proof N1 as N1'. pose proof N2 as N2'.
    apply String.eqb_neq in N1', N2'. rewrite N1', N2'.
    destruct H1 as [H1|H1]; [contradiction|].
    destruct H2 as [H2|H2]; [contradiction|].
    rewrite IH by assumption. reflexivity.
Qed.

End Dict.

(** ** The dictionary of zero counts *)

Lemma new_counts_from (names : list string) :
  forall d : dict Terra.Counts,
    NoDup (keys d) ->
    (forall k v, dict_get d k = Ok v -> v = Terra.mkCounts 0 0) ->
    let d' := fold_left (fun d district => dict_set d district (Terra.mkCounts 0 0))
                        names d in
    NoDup (keys d')
    /\ (forall k, In k (keys d') <-> In k (keys d) \/ In k names)
    /\ (forall k v, dict_get d' k = Ok v -> v = Terra.mkCounts 0 0).
Proof.
  induction names as [|n names IH]; intros d Hnd Hz; simpl.
  - split; [exact Hnd|]. split; [intros k; tauto|exact Hz].
  - set (d1 := dict_set d n (Terra.mkCounts 0 0)).
    assert (Hk1 : forall k, In k (keys d1) <-> In k (keys d) \/ k = n).
    { intros k. unfold d1. destruct (in_dec string_dec n (keys d)) as [Hin|Hnin].
      - rewrite keys_dict_set_present by exact Hin. split; [auto|].
        intros [Hk|Hk]; [exact Hk|subst; exact Hin].
      - rewrite keys_dict_set_absent by exact Hnin. rewrite in_app_iff. simpl.
        split; [intros [Hk|[Hk|[]]]; auto|intros [Hk|Hk]; auto]. }
    assert (Hnd1 : NoDup (keys d1)).
    { unfold d1. destruct (in_dec string_dec n (keys d)) as [Hin|Hnin].
      - rewrite keys_dict_set_present by exact Hin. exact Hnd.
      - rewrite keys_dict_set_absent by exact Hnin.
        apply NoDup_app; [exact Hnd|repeat constructor; intros []|].
        intros k Hk [Hk'|[]]. subst. contradiction. }
    assert (Hz1 : forall k v, dict_get d1 k = Ok v -> v = Terra.mkCounts 0 0).
    { intros k v. unfold d1. destruct (string_dec n k) as [Heq|Hne].
      - subst. rewrite dict_get_set_same. intros [= <-]. reflexivity.
      - rewrite dict_get_set_other by exact Hne. apply Hz. }
    destruct (IH d1 Hnd1 Hz1) as [Hnd' [Hk' Hz']].
    split; [exact Hnd'|]. split; [|exact Hz'].
    intros k. rewrite Hk', Hk1. simpl. intuition congruence.
Qed.

Lemma new_counts_spec (names : list string) :
  NoDup (keys (Terra.new_counts names))
  /\ (forall k, In k (keys (Terra.new_counts names)) <-> In k names)
  /\ (forall k v, dict_get (Terra.new_counts names) k = Ok v -> v = Terra.mkCounts 0 0).
Proof.
  destruct (new_counts_from names [] (NoDup_nil _)) as [Hnd [Hk Hz]].
  - intros k v. discriminate.
  - split; [exact Hnd|]. split; [|exact Hz].
    intros k. rewrite (Hk k). simpl. tauto.
Qed.

(** * The counting loops of terra.py, seen as events: facts *)

Section EventFacts.
Context {G : Type} `{Geometry G}.
Variable districts : list (Feature G).

Lemma green_body_event (row : Series) (counts : dict Terra.Counts) :
  Terra.green_body districts row counts
  = event_body districts "Lat1" "Long1" bump_green row counts.
Proof.
  unfold Terra.green_body, event_body, pair_event.
  destruct (getitem row "Lat1") as [lat|e]; simpl; [|reflexivity].
  destruct (notna lat); [|reflexivity].
  destruct (getitem row "Long1") as [lon|e]; simpl; [|reflexivity].
  destruct (notna lon); [|reflexivity].
  destruct (Terra.get_district_name districts lat lon) as [d|]; simpl;
    [|reflexivity].
  destruct (negb (d =? "")); reflexivity.
Qed.

Lemma red_body_event (row : Series) (counts : dict Terra.Counts) :
  Terra.red_body districts row counts
  = event_body districts "Lat2" "Long2" bump_red row counts.
Proof.
  unfold Terra.red_body, event_body, pair_event.
  destruct (getitem row "Lat2") as [lat|e]; simpl; [|reflexivity].
  destruct (notna lat); [|reflexivity].
  destruct (getitem row "Long2") as [lon|e]; simpl; [|reflexivity].
  destruct (notna lon); [|reflexivity].
  destruct (Terra.get_district_name districts lat lon) as [d|]; simpl;
    [|reflexivity].
  destruct (negb (d =? "")); reflexivity.
Qed.

Lemma for_each_ext {R S : Type} (body body' : R -> S -> result S) (rows : list R) :
  (forall r s, body r s = body' r s) ->
  forall s, for_each body rows s = for_each body' rows s.
Proof.
  intros Hext. induction rows as [|r rows IH]; intros s; simpl; [reflexivity|].
  rewrite Hext. destruct (body' r s); simpl; auto.
Qed.

Lemma pair_event_named (row : Series) (latc lonc d : string) :
  pair_event districts row latc lonc = Ok (Some d) -> In d (map name districts).
Proof.
  unfold pair_event.
  destruct (getitem row latc) as [lat|e]; simpl; [|discriminate].
  destruct (notna lat); [|discriminate].
  destruct (getitem row lonc) as [lon|e]; simpl; [|discriminate].
  destruct (notna lon); [|discriminate].
  destruct (Terra.get_district_name districts lat lon) as [d'|] eqn:Hd; simpl.
  - destruct (negb (d' =? "")); [|discriminate]. intros [= <-].
    eapply terra_scan_In. exact Hd.
  - discriminate.
Qed.

Lemma pair_event_Raise (row : Series) (latc lonc : string) (e : exn) :
  pair_event districts row latc lonc = Raise e ->
  (e = KeyError latc /\ ~ In latc (index row))
  \/ (e = KeyError lonc /\ In latc (index row) /\ ~ In lonc (index row)).
Proof.
  unfold pair_event.
  destruct (getitem row latc) as [lat|e1] eqn:Hlat; simpl.
  - destruct (notna lat); [|discriminate].
    destruct (getitem row lonc) as [lon|e2] eqn:Hlon; simpl.
    + destruct (notna lon); discriminate.
    + intros [= <-]. right. apply getitem_Raise in Hlon.
      destruct Hlon as [He Hn]. apply getitem_Ok_In in Hlat. auto.
  - intros [= <-]. left. apply getitem_Raise in Hlat. exact Hlat.
Qed.

Lemma pair_event_Raise_same (a b : Series) (latc lonc : string) (ea eb : exn) :
  index a = index b ->
  pair_event districts a latc lonc = Raise ea -> pair_event districts b latc lonc = Raise eb ->
  ea = eb.
Proof.
  intros Hidx Ha Hb. apply pair_event_Raise in Ha, Hb. rewrite Hidx in Ha.
  destruct Ha as [[-> Ha]|[-> [Ha1 Ha2]]], Hb as [[-> Hb]|[-> [Hb1 Hb2]]];
    try reflexivity; contradiction.
Qed.

Lemma pair_event_Ok (row : Series) (latc lonc : string) :
  In latc (index row) -> In lonc (index row) ->
  exists event, pair_event districts row latc lonc = Ok event.
Proof.
  intros Hlat Hlon. unfold pair_event.
  destruct (getitem_In row latc Hlat) as [lat ->]. simpl.
  destruct (notna lat); [|eauto].
  destruct (getitem_In row lonc Hlon) as [lon ->]. simpl.
  destruct (notna lon); eauto.
Qed.

(** ** One increment *)

Lemma bump_Ok (f : Terra.Counts -> Terra.Counts) (counts : dict Terra.Counts)
      (d : string) :
  In d (keys counts) ->
  exists inner, dict_get counts d = Ok inner
                /\ bump f counts d = Ok (dict_set counts d (f inner)).
Proof.
  intros Hin. apply dict_get_In_keys in Hin. destruct Hin as [inner Hget].
  exists inner. unfold bump. rewrite Hget. auto.
Qed.

Lemma bump_keys (f : Terra.Counts -> Terra.Counts) (counts counts' : dict Terra.Counts)
      (d : string) :
  bump f counts d = Ok counts' -> keys counts' = keys counts.
Proof.
  unfold bump. destruct (dict_get counts d) as [inner|e] eqn:Hget; simpl;
    [|discriminate].
  intros [= <-]. apply keys_dict_set_present. apply dict_get_In_keys. eauto.
Qed.

Lemma bump_get_other (f : Terra.Counts -> Terra.Counts)
      (counts counts' : dict Terra.Counts) (d k : string) :
  bump f counts d = Ok counts' -> d <> k -> dict_get counts' k = dict_get counts k.
Proof.
  unfold bump. destruct (dict_get counts d) as [inner|e]; simpl; [|discriminate].
  intros [= <-] Hne. apply dict_get_set_other. exact Hne.
Qed.

Lemma bump_comm (f : Terra.Counts -> Terra.Counts) (counts : dict Terra.Counts)
      (d1 d2 : string) :
  In d1 (keys counts) -> In d2 (keys counts) ->
  Py.bind (bump f counts d1) (fun c => bump f c d2)
  = Py.bind (bump f counts d2) (fun c => bump f c d1).
Proof.
  intros H1 H2. destruct (string_dec d1 d2) as [Heq|Hne]; [subst; reflexivity|].
  destruct (bump_Ok f counts d1 H1) as [v1 [G1 B1]].
  destruct (bump_Ok f counts d2 H2) as [v2 [G2 B2]].
  rewrite B1, B2. simpl. unfold bump.
  rewrite dict_get_set_other by exact Hne.
  rewrite dict_get_set_other by (intros Heq; apply Hne; symmetry; exact Heq).
  rewrite G1, G2. simpl. f_equal. apply dict_set_comm; assumption.
Qed.

Lemma record_keys (f : Terra.Counts -> Terra.Counts)
      (counts counts' : dict Terra.Counts) (event : option string) :
  record f counts event = Ok counts' -> keys counts' = keys counts.
Proof.
  destruct event as [d|]; simpl; [apply bump_keys|]. intros [= <-]. reflexivity.
Qed.

Lemma event_body_keys (latc lonc : string) (f : Terra.Counts -> Terra.Counts)
      (row : Series) (counts counts' : dict Terra.Counts) :
  event_body districts latc lonc f row counts = Ok counts' -> keys counts' = keys counts.
Proof.
  unfold event_body. destruct (pair_event districts row latc lonc) as [event|e]; simpl;
    [apply record_keys|discriminate].
Qed.

Lemma for_each_event_body_keys (latc lonc : string) (f : Terra.Counts -> Terra.Counts)
      (rows : list Series) :
  forall counts counts',
    for_each (event_body districts latc lonc f) rows counts = Ok counts' ->
    keys counts' = keys counts.
Proof.
  induction rows as [|row rows IH]; intros counts counts'; simpl.
  - intros [= <-]. reflexivity.
  - destruct (event_body districts latc lonc f row counts) as [c1|e] eqn:Hb; simpl;
      [|discriminate].
    intros Hrest. apply IH in Hrest. apply event_body_keys in Hb. congruence.
Qed.

Lemma record_Ok (f : Terra.Counts -> Terra.Counts) (counts : dict Terra.Counts)
      (row : Series) (latc lonc : string) (event : option string) :
  covers_names districts counts -> pair_event districts row latc lonc = Ok event ->
  exists counts', record f counts event = Ok counts'.
Proof.
  intros Hcov Hev. destruct event as [d|]; simpl; [|eauto].
  apply pair_event_named in Hev. apply Hcov in Hev.
  destruct (bump_Ok f counts d Hev) as [inner [_ Hb]]. eauto.
Qed.

End EventFacts.

(** * Loops over permuted rows *)

Lemma bind_ext {A B : Type} (m : result A) (f g : A -> result B) :
  (forall a, f a = g a) -> Py.bind m f = Py.bind m g.
Proof. intros Hext. destruct m; simpl; auto. Qed.

Lemma bind_Ok_r {A : Type} (m : result A) : Py.bind m Ok = m.
Proof. destruct m; reflexivity. Qed.

Section Permuted.
Context {R S : Type}.
Variable body : R -> S -> result S.
Variable same_table : R -> Prop.
Variable inv : S -> Prop.
Hypothesis body_inv :
  forall r s s', same_table r -> inv s -> body r s = Ok s' -> inv s'.
Hypothesis body_comm :
  forall a b s, same_table a -> same_table b -> inv s ->
                Py.bind (body a s) (body b) = Py.bind (body b s) (body a).

Lemma for_each_Permutation (rows rows' : list R) :
  Permutation rows rows' -> Forall same_table rows ->
  forall s, inv s -> for_each body rows s = for_each body rows' s.
Proof.
  induction 1 as [|r rows rows' Hperm IH|a b rows|rows rows' rows'' H1 IH1 H2 IH2];
    intros Hall s Hs.
  - reflexivity.
  - inversion Hall as [|? ? Hr Hrows]; subst. simpl.
    destruct (body r s) as [s'|e] eqn:Hb; simpl; [|reflexivity].
    apply IH; [exact Hrows|]. eapply body_inv; eauto.
  - inversion Hall as [|? ? Hb Hrest]; subst.
    inversion Hrest as [|? ? Ha Hrows]; subst. simpl.
    rewrite <- !bind_assoc. f_equal. apply body_comm; assumption.
  - rewrite IH1 by assumption. apply IH2; [|exact Hs].
    eapply Permutation_Forall; eauto.
Qed.

End Permuted.

Section CountingCommutes.
Context {G : Type} `{Geometry G}.
Variable districts : list (Feature G).
Variables latc lonc : string.
Variable f : Terra.Counts -> Terra.Counts.

Lemma event_body_inv (row : Series) (counts counts' : dict Terra.Counts) :
  covers_names districts counts ->
  event_body districts latc lonc f row counts = Ok counts' ->
  covers_names districts counts'.
Proof.
  intros Hcov Hb n Hn. rewrite (event_body_keys _ _ _ _ _ _ _ Hb). auto.
Qed.

Lemma event_body_comm (a b : Series) (counts : dict Terra.Counts) :
  index a = index b -> covers_names districts counts ->
  Py.bind (event_body districts latc lonc f a counts)
          (event_body districts latc lonc f b)
  = Py.bind (event_body districts latc lonc f b counts)
            (event_body districts latc lonc f a).
Proof.
  intros Hidx Hcov. unfold event_body.
  destruct (pair_event districts a latc lonc) as [ea|xa] eqn:Ea;
    destruct (pair_event districts b latc lonc) as [eb|xb] eqn:Eb; simpl.
  - destruct ea as [d1|], eb as [d2|]; simpl.
    + apply bump_comm; apply Hcov; eapply pair_event_named; eauto.
    + apply bind_Ok_r.
    + symmetry. apply bind_Ok_r.
    + reflexivity.
  - destruct (record_Ok districts f counts a latc lonc ea Hcov Ea) as [c' ->].
    reflexivity.
  - destruct (record_Ok districts f counts b latc lonc eb Hcov Eb) as [c' ->].
    reflexivity.
  - f_equal. eapply pair_event_Raise_same; eauto.
Qed.

Lemma for_each_event_body_Permutation (cols : list string)
      (cells cells' : list (list float)) (counts : dict Terra.Counts) :
  Permutation cells cells' -> covers_names districts counts ->
  for_each (event_body districts latc lonc f) (map (mkSeries cols) cells) counts
  = for_each (event_body districts latc lonc f) (map (mkSeries cols) cells') counts.
Proof.
  intros Hperm Hcov.
  apply (for_each_Permutation _ (fun row => index row = cols)
                              (covers_names districts)).
  - intros r s s' _. apply event_body_inv.
  - intros a b s Ha Hb. apply event_body_comm. congruence.
  - apply Permutation_map. exact Hperm.
  - apply Forall_forall. intros row Hin. apply in_map_iff in Hin.
    destruct Hin as [c [<- _]]. reflexivity.
  - exact Hcov.
Qed.

Lemma for_each_event_body_Ok (rows : list Series) :
  Forall (fun row => In latc (index row) /\ In lonc (index row)) rows ->
  forall counts, covers_names districts counts ->
    exists counts', for_each (event_body districts latc lonc f) rows counts = Ok counts'.
Proof.
  induction 1 as [|row rows [Hlat Hlon] Hrows IH]; intros counts Hcov; simpl;
    [eauto|].
  destruct (pair_event_Ok districts row latc lonc Hlat Hlon) as [event Hev].
  destruct (record_Ok districts f counts row latc lonc event Hcov Hev) as [c1 Hc1].
  assert (Hb : event_body districts latc lonc f row counts = Ok c1).
  { unfold event_body. rewrite Hev. exact Hc1. }
  rewrite Hb. simpl. apply IH. eapply event_body_inv; eauto.
Qed.

(** A district no row of the loop is counted under keeps its entry. *)
Lemma for_each_event_body_untouched (k : string) (rows : list Series) :
  Forall (fun row => pair_event districts row latc lonc <> Ok (Some k)) rows ->
  forall counts counts',
    for_each (event_body districts latc lonc f) rows counts = Ok counts' ->
    dict_get counts' k = dict_get counts k.
Proof.
  induction 1 as [|row rows Hrow Hrows IH]; intros counts counts'; simpl.
  - intros [= <-]. reflexivity.
  - destruct (event_body districts latc lonc f row counts) as [c1|e] eqn:Hb; simpl;
      [|discriminate].
    intros Hrest. rewrite (IH _ _ Hrest). unfold event_body in Hb.
    destruct (pair_event districts row latc lonc) as [[d|]|e]; simpl in Hb.
    + eapply bump_get_other; [exact Hb|]. intros Heq. apply Hrow. congruence.
    + congruence.
    + discriminate.
Qed.

End CountingCommutes.

(** * Aggregation *)

Lemma leaves_no_trace_intro {R S : Type} (body : R -> S -> result S) (row : R) :
  (forall s, body row s = Ok s) -> leaves_no_trace body row.
Proof.
  intros Hrow. split; [exact Hrow|]. intros before after s.
  rewrite !for_each_app. apply bind_ext. intros s'. simpl. rewrite Hrow. reflexivity.
Qed.

Lemma rejected_main_sentinel (district : string) :
  rejected (result_of_main district) ->
  contains_str ["District out of UP"; "Invalid Coordinates"] district = true.
Proof.
  unfold rejected, result_of_main, contains_str. simpl.
  destruct (district =? "Invalid Coordinates"); [intros _; apply orb_true_r|].
  destruct (district =? "District out of UP"); [reflexivity|].
  intros [Hr|Hr]; discriminate.
Qed.

Lemma rejected_terra_falsy (district : option string) :
  rejected (result_of_terra district) -> truthy district = false.
Proof.
  destruct district as [d|]; [|reflexivity]. intros [Hr|Hr]; discriminate.
Qed.

(** C2, as [main.py] and [scalp.py] implement it: when one of the four
    columns is missing the run prints the diagnostic and exits with status
    1; the outcome is fixed by the column labels alone, no row and no
    boundary polygon is looked at and no map is saved. *)
Theorem main_aborts_on_missing_columns {G : Type} `{Geometry G}
        (districts : GeoDataFrame G) (data : DataFrame) :
  (exists col, In col Main.required_cols /\ ~ In col (columns data)) ->
  Main.run districts data
  = Exited ["Error: CSV must contain columns: ['Lat1', 'Long1', 'Lat2', 'Long2']"] 1.
Proof.
  intros [col [Hreq Hmiss]]. unfold Main.run.
  destruct (forallb (contains_str (columns data)) Main.required_cols) eqn:Hall;
    [|reflexivity].
  exfalso. apply Hmiss. apply contains_str_In.
  rewrite forallb_forall in Hall. apply Hall. exact Hreq.
Qed.

Lemma main_aborts_on_missing_columns_witness :
  Main.run lucknow (mkDataFrame ["Lat1"; "Long1"; "Lat2"] [[26.5; 80.5; 26.5]%float])
  = Exited ["Error: CSV must contain columns: ['Lat1', 'Long1', 'Lat2', 'Long2']"] 1.
Proof.
  apply (main_aborts_on_missing_columns lucknow).
  exists "Long2". split.
  - simpl. auto.
  - simpl. intros [Heq|[Heq|[Heq|[]]]]; discriminate.
Defined.

(** C2 fails on [terra.py], which has no column check: on a table without
    the four columns and without rows it writes the spreadsheet and ends
    normally; on a table with only the first pair of columns it counts the
    green markers of every row before the red loop raises [KeyError]. *)
Lemma terra_runs_without_required_columns :
  ~ In "Lat1" (columns (mkDataFrame ["station"] []))
  /\ Terra.run lucknow (mkDataFrame ["station"] [])
     = Finished ["✅ Excel file 'district_marker_counts.xlsx' has been created."]
                [Terra.mkOutputRow "LUCKNOW" 0 0]
  /\ for_each (Terra.green_body (features lucknow))
              (iterrows (mkDataFrame ["Lat1"; "Long1"] [[26.5; 80.5]%float]))
              (Terra.new_counts ["LUCKNOW"])
     = Ok [("LUCKNOW", Terra.mkCounts 1 0)]
  /\ Terra.run lucknow (mkDataFrame ["Lat1"; "Long1"] [[26.5; 80.5]%float])
     = Uncaught (KeyError "Lat2").
Proof.
  split; [simpl; intros [Heq|[]]; discriminate|].
  repeat split; vm_compute; reflexivity.
Qed.

(** C5: a pair whose classification is out of region or invalid leaves no
    trace.  In [main.py] neither loop adds a marker for it, in [terra.py]
    neither loop touches a counter, no exception is raised, and each loop
    ends as it does on the table without that row. *)
Theorem rejected_events_leave_no_trace {G : Type} `{Geometry G}
        (districts : list (Feature G)) (row : Series) (lat1 long1 lat2 long2 : float) :
  getitem row "Lat1" = Ok lat1 -> getitem row "Long1" = Ok long1 ->
  getitem row "Lat2" = Ok lat2 -> getitem row "Long2" = Ok long2 ->
  (rejected (result_of_main (Main.get_district_name districts lat1 long1)) ->
   leaves_no_trace (Main.imd_body districts) row)
  /\ (rejected (result_of_main (Main.get_district_name districts lat2 long2)) ->
      leaves_no_trace (Main.rahat_body districts) row)
  /\ (rejected (result_of_terra (Terra.get_district_name districts lat1 long1)) ->
      leaves_no_trace (Terra.green_body districts) row)
  /\ (rejected (result_of_terra (Terra.get_district_name districts lat2 long2)) ->
      leaves_no_trace (Terra.red_body districts) row).
Proof.
  intros Hlat1 Hlong1 Hlat2 Hlong2. split; [|split; [|split]]; intros Hrej;
    apply leaves_no_trace_intro; intros s.
  - unfold Main.imd_body, Py.bind. rewrite Hlat1.
    destruct (notna lat1); [|reflexivity]. rewrite Hlong1.
    destruct (notna long1); [|reflexivity].
    rewrite (rejected_main_sentinel _ Hrej). reflexivity.
  - unfold Main.rahat_body, Py.bind. rewrite Hlat2.
    destruct (notna lat2); [|reflexivity]. rewrite Hlong2.
    destruct (notna long2); [|reflexivity].
    rewrite (rejected_main_sentinel _ Hrej). reflexivity.
  - unfold Terra.green_body, Py.bind. rewrite Hlat1.
    destruct (notna lat1); [|reflexivity]. rewrite Hlong1.
    destruct (notna long1); [|reflexivity].
    rewrite (rejected_terra_falsy _ Hrej). reflexivity.
  - unfold Terra.red_body, Py.bind. rewrite Hlat2.
    destruct (notna lat2); [|reflexivity]. rewrite Hlong2.
    destruct (notna long2); [|reflexivity].
    rewrite (rejected_terra_falsy _ Hrej). reflexivity.
Qed.

Lemma rejected_events_leave_no_trace_witness :
  leaves_no_trace (Main.imd_body (Main.standardize (features lucknow)))
                  (mkSeries ["Lat1"; "Long1"; "Lat2"; "Long2"] (reading 95 80.5 26.5 80))
  /\ leaves_no_trace (Terra.red_body (features lucknow))
                     (mkSeries ["Lat1"; "Long1"; "Lat2"; "Long2"] (reading 95 80.5 26.5 80)).
Proof.
  split.
  - apply (rejected_events_leave_no_trace
             (Main.standardize (features lucknow))
             (mkSeries ["Lat1"; "Long1"; "Lat2"; "Long2"] (reading 95 80.5 26.5 80))
             95 80.5 26.5 80 eq_refl eq_refl eq_refl eq_refl).
    right. reflexivity.
  - apply (rejected_events_leave_no_trace
             (features lucknow)
             (mkSeries ["Lat1"; "Long1"; "Lat2"; "Long2"] (reading 95 80.5 26.5 80))
             95 80.5 26.5 80 eq_refl eq_refl eq_refl eq_refl).
    left. reflexivity.
Defined.

(** C7: a row whose source-A pair is missing (Lat1 is NaN, or Long1 is NaN)
    is passed over by the source-A loop of both scripts, while its source-B
    pair is classified and aggregated as that of any row with the same Lat2
    and Long2 cells, in particular one whose source-A pair is present: when
    the pair is there and looked up to a district, [terra.py] raises the red
    count of that district by one and [main.py] adds the Rahat marker of
    that pair and district. *)
Theorem missing_source_A_pair {G : Type} `{Geometry G}
        (districts : list (Feature G)) (row row' : Series) (lat1 : float) :
  getitem row "Lat1" = Ok lat1 ->
  (is_nan lat1 = true
   \/ exists long1, getitem row "Long1" = Ok long1 /\ is_nan long1 = true) ->
  getitem row' "Lat2" = getitem row "Lat2" ->
  getitem row' "Long2" = getitem row "Long2" ->
  leaves_no_trace (Terra.green_body districts) row
  /\ leaves_no_trace (Main.imd_body districts) row
  /\ (forall counts,
        Terra.red_body districts row counts = Terra.red_body districts row' counts)
  /\ (forall fg,
        Main.rahat_body districts row fg = Main.rahat_body districts row' fg)
  /\ (forall lat2 long2,
        getitem row "Lat2" = Ok lat2 -> getitem row "Long2" = Ok long2 ->
        notna lat2 = true -> notna long2 = true ->
        (forall d inner counts,
            Terra.get_district_name districts lat2 long2 = Some d -> d <> "" ->
            dict_get counts d = Ok inner ->
            Terra.red_body districts row counts
            = Ok (dict_set counts d
                           (Terra.mkCounts (Terra.Green inner) (Terra.Red inner + 1))))
        /\ (forall fg,
              contains_str ["District out of UP"; "Invalid Coordinates"]
                           (Main.get_district_name districts lat2 long2) = false ->
              Main.rahat_body districts row fg
              = Ok (let marker :=
                      Main.mkMarker (lat2, long2)
                        ("District: " ++ Main.get_district_name districts lat2 long2
                                      ++ "<br>Type: Rahat") "orange" in
                    Main.mkGroups (Main.districts_fg fg ++ [marker]) (Main.imd_fg fg)
                                  (Main.rahat_fg fg ++ [marker])))).
Proof.
  intros Hlat1 Hmissing Hlat2 Hlong2.
  assert (Hskip : notna lat1 = false
                  \/ exists long1, getitem row "Long1" = Ok long1 /\ notna long1 = false).
  { unfold notna. destruct Hmissing as [Hnan|[long1 [Hlong1 Hnan]]].
    - left. rewrite Hnan. reflexivity.
    - right. exists long1. rewrite Hnan. auto. }
  split; [|split; [|split; [|split]]].
  - apply leaves_no_trace_intro. intros s. unfold Terra.green_body, Py.bind.
    rewrite Hlat1. destruct Hskip as [->|[long1 [Hlong1 Hna]]]; [reflexivity|].
    destruct (notna lat1); [|reflexivity]. rewrite Hlong1, Hna. reflexivity.
  - apply leaves_no_trace_intro. intros s. unfold Main.imd_body, Py.bind.
    rewrite Hlat1. destruct Hskip as [->|[long1 [Hlong1 Hna]]]; [reflexivity|].
    destruct (notna lat1); [|reflexivity]. rewrite Hlong1, Hna. reflexivity.
  - intros counts. unfold Terra.red_body. rewrite Hlat2, Hlong2. reflexivity.
  - intros fg. unfold Main.rahat_body. rewrite Hlat2, Hlong2. reflexivity.
  - intros lat2 long2 Hb1 Hb2 Hn1 Hn2. split.
    + intros d inner counts Hd Hne Hget.
      unfold Terra.red_body, Py.bind. rewrite Hb1, Hn1, Hb2, Hn2, Hd.
      apply String.eqb_neq in Hne. simpl. rewrite Hne. simpl.
      unfold Terra.add_red, Py.bind. rewrite Hget. reflexivity.
    + intros fg Hs. unfold Main.rahat_body, Py.bind.
      rewrite Hb1, Hn1, Hb2, Hn2, Hs. reflexivity.
Qed.

Lemma missing_source_A_pair_witness :
  leaves_no_trace (Terra.green_body (features lucknow))
                  (mkSeries ["Lat1"; "Long1"; "Lat2"; "Long2"] (reading 26.5 nan 26.5 80.5))
  /\ Terra.red_body (features lucknow)
       (mkSeries ["Lat1"; "Long1"; "Lat2"; "Long2"] (reading 26.5 nan 26.5 80.5))
       (Terra.new_counts ["LUCKNOW"])
     = Ok [("LUCKNOW", Terra.mkCounts 0 1)]
  /\ Main.rahat_body (Main.standardize (features lucknow))
       (mkSeries ["Lat1"; "Long1"; "Lat2"; "Long2"] (reading 26.5 nan 26.5 80.5))
       Main.no_markers
     = Ok (let marker := Main.mkMarker (26.5, 80.5)%float
                                       "District: Lucknow<br>Type: Rahat" "orange" in
           Main.mkGroups [marker] [] [marker]).
Proof.
  destruct (missing_source_A_pair
              (features lucknow)
              (mkSeries ["Lat1"; "Long1"; "Lat2"; "Long2"] (reading 26.5 nan 26.5 80.5))
              (mkSeries ["Lat1"; "Long1"; "Lat2"; "Long2"] (reading 26.5 80.5 26.5 80.5))
              26.5 eq_refl
              (or_intror (ex_intro _ nan (conj eq_refl eq_refl))) eq_refl eq_refl)
    as [Hgreen [_ [_ [_ Hb]]]].
  destruct (missing_source_A_pair
              (Main.standardize (features lucknow))
              (mkSeries ["Lat1"; "Long1"; "Lat2"; "Long2"] (reading 26.5 nan 26.5 80.5))
              (mkSeries ["Lat1"; "Long1"; "Lat2"; "Long2"] (reading 26.5 80.5 26.5 80.5))
              26.5 eq_refl
              (or_intror (ex_intro _ nan (conj eq_refl eq_refl))) eq_refl eq_refl)
    as [_ [_ [_ [_ Hm]]]].
  split; [exact Hgreen|]. split.
  - destruct (Hb 26.5%float 80.5%float eq_refl eq_refl eq_refl eq_refl) as [Hred _].
    apply (Hred "LUCKNOW" (Terra.mkCounts 0 0) (Terra.new_counts ["LUCKNOW"]));
      [reflexivity|discriminate|reflexivity].
  - destruct (Hm 26.5%float 80.5%float eq_refl eq_refl eq_refl eq_refl) as [_ Hrahat].
    apply (Hrahat Main.no_markers). reflexivity.
Defined.

(** * The run of terra.py *)

Section TerraRun.
Context {G : Type} `{Geometry G}.
Variable districts : GeoDataFrame G.

Lemma name_column_Ok (names : list string) :
  Terra.name_column districts = Ok names -> names = map name (features districts).
Proof.
  unfold Terra.name_column.
  destruct (contains_str (gcolumns districts) (Terra.district_name_col districts));
    [|discriminate].
  intros [= <-]. reflexivity.
Qed.

Lemma new_counts_covers_names :
  covers_names (features districts) (Terra.new_counts (map name (features districts))).
Proof. intros n Hn. apply new_counts_spec. exact Hn. Qed.

Lemma reachable_covers_names (counts : dict Terra.Counts) :
  reachable districts counts -> covers_names (features districts) counts.
Proof.
  induction 1 as [names Hnames|row counts counts' _ IH Hbody|row counts counts' _ IH Hbody].
  - rewrite (name_column_Ok _ Hnames). apply new_counts_covers_names.
  - rewrite green_body_event in Hbody. eapply event_body_inv; eauto.
  - rewrite red_body_event in Hbody. eapply event_body_inv; eauto.
Qed.

Lemma green_loop_event (rows : list Series) (counts : dict Terra.Counts) :
  for_each (Terra.green_body (features districts)) rows counts
  = for_each (event_body (features districts) "Lat1" "Long1" bump_green) rows counts.
Proof. apply for_each_ext. apply green_body_event. Qed.

Lemma red_loop_event (rows : list Series) (counts : dict Terra.Counts) :
  for_each (Terra.red_body (features districts)) rows counts
  = for_each (event_body (features districts) "Lat2" "Long2" bump_red) rows counts.
Proof. apply for_each_ext. apply red_body_event. Qed.

Lemma count_markers_Permutation (cols : list string) (cells cells' : list (list float))
      (counts : dict Terra.Counts) :
  Permutation cells cells' -> covers_names (features districts) counts ->
  Terra.count_markers (features districts) (map (mkSeries cols) cells) counts
  = Terra.count_markers (features districts) (map (mkSeries cols) cells') counts.
Proof.
  intros Hperm Hcov. unfold Terra.count_markers.
  rewrite !green_loop_event.
  rewrite (for_each_event_body_Permutation _ _ _ _ cols cells cells' counts Hperm Hcov).
  destruct (for_each (event_body (features districts) "Lat1" "Long1" bump_green)
                     (map (mkSeries cols) cells') counts) as [c1|e] eqn:Hgreen;
    simpl; [|reflexivity].
  rewrite !red_loop_event. apply for_each_event_body_Permutation; [exact Hperm|].
  intros n Hn. rewrite (for_each_event_body_keys _ _ _ _ _ _ _ Hgreen). auto.
Qed.

Lemma count_markers_Ok (data : DataFrame) (counts : dict Terra.Counts) :
  Forall (fun col => In col (columns data)) ["Lat1"; "Long1"; "Lat2"; "Long2"] ->
  covers_names (features districts) counts ->
  exists c1 c2,
    for_each (event_body (features districts) "Lat1" "Long1" bump_green)
             (iterrows data) counts = Ok c1
    /\ for_each (event_body (features districts) "Lat2" "Long2" bump_red)
                (iterrows data) c1 = Ok c2
    /\ Terra.count_markers (features districts) (iterrows data) counts = Ok c2.
Proof.
  intros Hcols Hcov.
  inversion Hcols as [|? ? Hlat1 Hc1]; subst.
  inversion Hc1 as [|? ? Hlong1 Hc2]; subst.
  inversion Hc2 as [|? ? Hlat2 Hc3]; subst.
  inversion Hc3 as [|? ? Hlong2 _]; subst.
  assert (Hrows : forall a b, In a (columns data) -> In b (columns data) ->
            Forall (fun row => In a (index row) /\ In b (index row)) (iterrows data)).
  { intros a b Ha Hb. apply Forall_forall. intros row Hin.
    apply in_map_iff in Hin. destruct Hin as [cells [<- _]]. simpl. auto. }
  destruct (for_each_event_body_Ok (features districts) "Lat1" "Long1" bump_green
              (iterrows data) (Hrows _ _ Hlat1 Hlong1) counts Hcov) as [c1 Hgreen].
  assert (Hcov1 : covers_names (features districts) c1).
  { intros n Hn. rewrite (for_each_event_body_keys _ _ _ _ _ _ _ Hgreen). auto. }
  destruct (for_each_event_body_Ok (features districts) "Lat2" "Long2" bump_red
              (iterrows data) (Hrows _ _ Hlat2 Hlong2) c1 Hcov1) as [c2 Hred].
  exists c1, c2. split; [exact Hgreen|]. split; [exact Hred|].
  unfold Terra.count_markers. rewrite green_loop_event, Hgreen. simpl.
  rewrite red_loop_event. exact Hred.
Qed.

Lemma pair_event_Some (row : Series) (latc lonc k : string) :
  pair_event (features districts) row latc lonc = Ok (Some k) ->
  exists lat lon,
    getitem row latc = Ok lat /\ getitem row lonc = Ok lon
    /\ notna lat = true /\ notna lon = true
    /\ Terra.get_district_name (features districts) lat lon = Some k.
Proof.
  unfold pair_event.
  destruct (getitem row latc) as [lat|e]; simpl; [|discriminate].
  destruct (notna lat) eqn:Hlat; [|discriminate].
  destruct (getitem row lonc) as [lon|e]; simpl; [|discriminate].
  destruct (notna lon) eqn:Hlon; [|discriminate].
  destruct (Terra.get_district_name (features districts) lat lon) as [d|] eqn:Hd;
    simpl; [|discriminate].
  destruct (negb (d =? "")); [|discriminate].
  intros [= <-]. exists lat, lon. auto.
Qed.

End TerraRun.

Lemma dict_get_NoDup {V : Type} (d : dict V) (k : string) (v : V) :
  NoDup (keys d) -> In (k, v) d -> dict_get d k = Ok v.
Proof.
  induction d as [|[k' v'] d IH]; simpl; [intros _ []|].
  intros Hnd Hin. inversion Hnd as [|? ? Hnotin Hnd']; subst.
  destruct Hin as [[= -> ->]|Hin].
  - rewrite String.eqb_refl. reflexivity.
  - destruct (String.eqb_spec k' k) as [Heq|Hne]; [|auto].
    exfalso. apply Hnotin. subst. apply (in_map fst) in Hin. exact Hin.
Qed.

(** C6: the run of [terra.py] on a table and on the table with its rows in
    any other order ends the same way, with the same spreadsheet (or with
    the same exception when a column is missing). *)
Theorem terra_counts_order_independent {G : Type} `{Geometry G}
        (districts : GeoDataFrame G) (cols : list string)
        (cells cells' : list (list float)) :
  Permutation cells cells' ->
  Terra.run districts (mkDataFrame cols cells)
  = Terra.run districts (mkDataFrame cols cells').
Proof.
  intros Hperm. unfold Terra.run.
  destruct (Terra.name_column districts) as [names|e] eqn:Hnames; [|reflexivity].
  rewrite (name_column_Ok _ _ Hnames). unfold iterrows. simpl.
  rewrite (count_markers_Permutation districts cols cells cells' _ Hperm
             (new_counts_covers_names districts)).
  reflexivity.
Qed.

Lemma terra_counts_order_independent_witness :
  Terra.run overlapping (readings [reading 27.5 78.5 nan 78.5; reading 95 78.5 28.5 79.5])
  = Terra.run overlapping (readings [reading 95 78.5 28.5 79.5; reading 27.5 78.5 nan 78.5]).
Proof.
  apply (terra_counts_order_independent overlapping).
  apply perm_swap.
Defined.

(** C9: when the boundary table has its name column and the readings table
    its four columns, [terra.py] writes a table with exactly one row per
    distinct district name of the boundary file, and a district under which
    no pair of the readings is counted has 0 green and 0 red markers. *)
Theorem terra_table_lists_every_district {G : Type} `{Geometry G}
        (districts : GeoDataFrame G) (data : DataFrame) :
  In (Terra.district_name_col districts) (gcolumns districts) ->
  Forall (fun col => In col (columns data)) ["Lat1"; "Long1"; "Lat2"; "Long2"] ->
  exists stdout table,
    Terra.run districts data = Finished stdout table
    /\ NoDup (map Terra.District table)
    /\ (forall n, In n (map Terra.District table) <-> In n (map name (features districts)))
    /\ (forall r, In r table -> unvisited districts data (Terra.District r) ->
                  Terra.Green_Markers r = 0 /\ Terra.Red_Markers r = 0).
Proof.
  intros Hname Hcols. unfold Terra.run, Terra.name_column.
  apply contains_str_In in Hname. rewrite Hname.
  set (c0 := Terra.new_counts (map name (features districts))).
  destruct (count_markers_Ok districts data c0 Hcols (new_counts_covers_names districts))
    as [c1 [c2 [Hgreen [Hred Hrun]]]].
  rewrite Hrun. eexists. exists (Terra.output_df c2). split; [reflexivity|].
  assert (Hkeys : map Terra.District (Terra.output_df c2) = keys c0).
  { unfold Terra.output_df. rewrite map_map. change (keys c2 = keys c0).
    rewrite (for_each_event_body_keys _ _ _ _ _ _ _ Hred).
    rewrite (for_each_event_body_keys _ _ _ _ _ _ _ Hgreen). reflexivity. }
  destruct (new_counts_spec (map name (features districts))) as [Hnd [Hin Hzero]].
  fold c0 in Hnd, Hin, Hzero. rewrite Hkeys.
  split; [exact Hnd|]. split; [exact Hin|].
  intros r Hr Hun. unfold Terra.output_df in Hr. apply in_map_iff in Hr.
  destruct Hr as [[k v] [<- Hkv]]. simpl in *.
  assert (Hget : dict_get c2 k = Ok v).
  { apply dict_get_NoDup; [|exact Hkv].
    rewrite (for_each_event_body_keys _ _ _ _ _ _ _ Hred).
    rewrite (for_each_event_body_keys _ _ _ _ _ _ _ Hgreen). exact Hnd. }
  assert (Huntouched : forall latc lonc,
            (latc = "Lat1" /\ lonc = "Long1") \/ (latc = "Lat2" /\ lonc = "Long2") ->
            Forall (fun row => pair_event (features districts) row latc lonc <> Ok (Some k))
                   (iterrows data)).
  { intros latc lonc Hsrc. apply Forall_forall. intros row Hrow Hev.
    apply pair_event_Some in Hev.
    destruct Hev as [lat [lon [Hlat [Hlon [Hnlat [Hnlon Hd]]]]]].
    apply (Hun row lat lon Hrow Hnlat Hnlon); [|exact Hd].
    destruct Hsrc as [[-> ->]|[-> ->]]; auto. }
  rewrite (for_each_event_body_untouched _ _ _ _ k _ (Huntouched _ _ (or_intror (conj eq_refl eq_refl))) _ _ Hred) in Hget.
  rewrite (for_each_event_body_untouched _ _ _ _ k _ (Huntouched _ _ (or_introl (conj eq_refl eq_refl))) _ _ Hgreen) in Hget.
  apply Hzero in Hget. subst v. split; reflexivity.
Qed.

Lemma terra_table_lists_every_district_witness :
  exists stdout table,
    Terra.run overlapping (readings [reading 27.5 78.5 nan 78.5]) = Finished stdout table
    /\ NoDup (map Terra.District table)
    /\ (forall n, In n (map Terra.District table) <-> In n ["agra"; "mathura"; "etah"])
    /\ (forall r, In r table ->
                  unvisited overlapping (readings [reading 27.5 78.5 nan 78.5])
                            (Terra.District r) ->
                  Terra.Green_Markers r = 0 /\ Terra.Red_Markers r = 0).
Proof.
  apply (terra_table_lists_every_district overlapping
           (readings [reading 27.5 78.5 nan 78.5])).
  - simpl. auto.
  - repeat (apply Forall_cons; [simpl; auto 10|]). apply Forall_nil.
Defined.

(** C10: in [terra.py] the lookup [counts[district]] cannot miss.  A name
    answered by [get_district_name] is a cell of the name column, and every
    dictionary the run goes through has that name as a key, so both
    increments go through. *)
Theorem counts_lookup_never_misses {G : Type} `{Geometry G}
        (districts : GeoDataFrame G) (counts : dict Terra.Counts)
        (lat lon : float) (district : string) :
  reachable districts counts ->
  Terra.get_district_name (features districts) lat lon = Some district ->
  In district (map name (features districts))
  /\ (exists inner, dict_get counts district = Ok inner)
  /\ (exists counts', Terra.add_green counts district = Ok counts')
  /\ (exists counts', Terra.add_red counts district = Ok counts').
Proof.
  intros Hreach Hd.
  assert (Hin : In district (map name (features districts))).
  { eapply terra_scan_In. exact Hd. }
  apply reachable_covers_names in Hreach. pose proof (Hreach _ Hin) as Hkey.
  split; [exact Hin|]. split; [apply dict_get_In_keys; exact Hkey|]. split.
  - destruct (bump_Ok bump_green counts district Hkey) as [inner [_ Hb]]. eauto.
  - destruct (bump_Ok bump_red counts district Hkey) as [inner [_ Hb]]. eauto.
Qed.

Lemma counts_lookup_never_misses_witness :
  exists counts', Terra.add_red [("LUCKNOW", Terra.mkCounts 1 0)] "LUCKNOW" = Ok counts'.
Proof.
  apply (counts_lookup_never_misses lucknow [("LUCKNOW", Terra.mkCounts 1 0)] 26.5 80.5).
  - apply (reach_green lucknow
             (mkSeries ["Lat1"; "Long1"; "Lat2"; "Long2"] (reading 26.5 80.5 nan nan))
             (Terra.new_counts ["LUCKNOW"])).
    + apply reach_new. reflexivity.
    + reflexivity.
  - reflexivity.
Defined.

(** * Further properties of main.py *)

Lemma title_not_out_of_UP (s : string) : title s <> "District out of UP".
Proof.
  intros Heq. pose proof (title_idempotent s) as Hid. rewrite Heq in Hid.
  vm_compute in Hid. discriminate.
Qed.

Lemma for_each_total {R S : Type} (body : R -> S -> result S) (rows : list R) :
  Forall (fun row => forall s, exists s', body row s = Ok s') rows ->
  forall s, exists s', for_each body rows s = Ok s'.
Proof.
  induction 1 as [|row rows Hrow _ IH]; intros s; simpl; [eauto|].
  destruct (Hrow s) as [s1 ->]. simpl. apply IH.
Qed.

Lemma has_reading_columns_forallb (data : DataFrame) :
  has_reading_columns data ->
  forallb (contains_str (columns data)) Main.required_cols = true.
Proof.
  intros Hcols. apply forallb_forall. intros col Hcol. apply contains_str_In.
  unfold has_reading_columns in Hcols. rewrite Forall_forall in Hcols. auto.
Qed.

Lemma has_reading_columns_rows (data : DataFrame) (col : string) :
  has_reading_columns data -> In col Main.required_cols ->
  Forall (fun row => In col (index row)) (iterrows data).
Proof.
  intros Hcols Hcol. unfold has_reading_columns in Hcols.
  rewrite Forall_forall in Hcols. apply Forall_forall. intros row Hrow.
  apply in_map_iff in Hrow. destruct Hrow as [cells [<- _]]. simpl. auto.
Qed.

Lemma main_district_name_col_Some {G : Type} (districts : GeoDataFrame G) :
  has_name_column districts -> exists col, Main.district_name_col districts = Some col.
Proof.
  unfold has_name_column, Main.district_name_col. simpl. intros Hname.
  destruct (contains_str (gcolumns districts) "district") eqn:Hd; [eauto|].
  destruct (contains_str (gcolumns districts) "DISTRICT") eqn:HD; [eauto|].
  exfalso. destruct Hname as [Hin|Hin]; apply contains_str_In in Hin; congruence.
Qed.

Lemma main_district_name_col_None {G : Type} (districts : GeoDataFrame G) :
  ~ In "district" (gcolumns districts) -> ~ In "DISTRICT" (gcolumns districts) ->
  Main.district_name_col districts = None.
Proof.
  unfold Main.district_name_col. simpl. intros Hd HD.
  destruct (contains_str (gcolumns districts) "district") eqn:Ed.
  - exfalso. apply Hd. apply contains_str_In. exact Ed.
  - destruct (contains_str (gcolumns districts) "DISTRICT") eqn:ED; [|reflexivity].
    exfalso. apply HD. apply contains_str_In. exact ED.
Qed.

Section MainLoops.
Context {G : Type} `{Geometry G}.
Variable districts : list (Feature G).

Lemma main_scan_cases (rows : list (Feature G)) (p : Point) :
  (Main.scan rows p = "District out of UP"
   /\ forall r, In r rows -> contains (geometry r) p = false)
  \/ (exists r, In r rows /\ contains (geometry r) p = true
                /\ Main.scan rows p = title (name r)).
Proof.
  induction rows as [|b rows IH]; simpl.
  - left. split; [reflexivity|intros r []].
  - destruct (contains (geometry b) p) eqn:Hb.
    + right. exists b. auto.
    + destruct IH as [[Hs Hnone]|[r [Hin [Hr Hs]]]].
      * left. split; [exact Hs|]. intros r [<-|Hin]; auto.
      * right. exists r. auto.
Qed.

(** An answer that is not a sentinel is the title-cased name of a row whose
    polygon contains the pair, and the pair is in range. *)
Lemma main_named_region (lat lon : float) :
  contains_str ["District out of UP"; "Invalid Coordinates"]
               (Main.get_district_name districts lat lon) = false ->
  valid_pair lat lon = true
  /\ exists r, In r districts /\ contains (geometry r) (mkPoint lon lat) = true
               /\ Main.get_district_name districts lat lon = title (name r).
Proof.
  unfold Main.get_district_name. fold (valid_pair lat lon).
  destruct (valid_pair lat lon); simpl; [|discriminate].
  intros Hns. split; [reflexivity|].
  destruct (main_scan_cases districts (mkPoint lon lat))
    as [[Hs _]|[r [Hin [Hr Hs]]]].
  - rewrite Hs in Hns. discriminate.
  - exists r. auto.
Qed.

Lemma imd_body_kept (row : Series) (fg fg' : Main.FeatureGroups) :
  Main.imd_body districts row fg = Ok fg' ->
  fg' = Main.mkGroups
          (Main.districts_fg fg ++ kept_marker districts "Lat1" "Long1" "IMD" "green" row)
          (Main.imd_fg fg ++ kept_marker districts "Lat1" "Long1" "IMD" "green" row)
          (Main.rahat_fg fg).
Proof.
  unfold Main.imd_body, kept_marker, Py.bind. cbv zeta.
  destruct (getitem row "Lat1") as [lat|e]; [|discriminate].
  destruct (notna lat).
  - destruct (getitem row "Long1") as [lon|e]; [|discriminate].
    destruct (notna lon).
    + destruct (contains_str ["District out of UP"; "Invalid Coordinates"]
                             (Main.get_district_name districts lat lon)); simpl;
        intros Heq; inversion Heq; subst; [rewrite !app_nil_r; destruct fg'|];
        reflexivity.
    + simpl. intros Heq. inversion Heq. subst. rewrite !app_nil_r. destruct fg'.
      reflexivity.
  - intros Heq. inversion Heq. subst. destruct (getitem row "Long1"); simpl;
      rewrite !app_nil_r; destruct fg'; reflexivity.
Qed.

Lemma rahat_body_kept (row : Series) (fg fg' : Main.FeatureGroups) :
  Main.rahat_body districts row fg = Ok fg' ->
  fg' = Main.mkGroups
          (Main.districts_fg fg ++ kept_marker districts "Lat2" "Long2" "Rahat" "orange" row)
          (Main.imd_fg fg)
          (Main.rahat_fg fg ++ kept_marker districts "Lat2" "Long2" "Rahat" "orange" row).
Proof.
  unfold Main.rahat_body, kept_marker, Py.bind. cbv zeta.
  destruct (getitem row "Lat2") as [lat|e]; [|discriminate].
  destruct (notna lat).
  - destruct (getitem row "Long2") as [lon|e]; [|discriminate].
    destruct (notna lon).
    + destruct (contains_str ["District out of UP"; "Invalid Coordinates"]
                             (Main.get_district_name districts lat lon)); simpl;
        intros Heq; inversion Heq; subst; [rewrite !app_nil_r; destruct fg'|];
        reflexivity.
    + simpl. intros Heq. inversion Heq. subst. rewrite !app_nil_r. destruct fg'.
      reflexivity.
  - intros Heq. inversion Heq. subst. destruct (getitem row "Long2"); simpl;
      rewrite !app_nil_r; destruct fg'; reflexivity.
Qed.

Lemma imd_loop_kept (rows : list Series) :
  forall fg fg',
    for_each (Main.imd_body districts) rows fg = Ok fg' ->
    fg' = Main.mkGroups
            (Main.districts_fg fg
             ++ flat_map (kept_marker districts "Lat1" "Long1" "IMD" "green") rows)
            (Main.imd_fg fg
             ++ flat_map (kept_marker districts "Lat1" "Long1" "IMD" "green") rows)
            (Main.rahat_fg fg).
Proof.
  induction rows as [|row rows IH]; intros fg fg'; simpl.
  - intros [= <-]. rewrite !app_nil_r. destruct fg. reflexivity.
  - destruct (Main.imd_body districts row fg) as [fg1|e] eqn:Hb; simpl; [|discriminate].
    intros Hrest. apply IH in Hrest. apply imd_body_kept in Hb. subst fg1 fg'.
    simpl. rewrite !app_assoc. reflexivity.
Qed.

Lemma rahat_loop_kept (rows : list Series) :
  forall fg fg',
    for_each (Main.rahat_body districts) rows fg = Ok fg' ->
    fg' = Main.mkGroups
            (Main.districts_fg fg
             ++ flat_map (kept_marker districts "Lat2" "Long2" "Rahat" "orange") rows)
            (Main.imd_fg fg)
            (Main.rahat_fg fg
             ++ flat_map (kept_marker districts "Lat2" "Long2" "Rahat" "orange") rows).
Proof.
  induction rows as [|row rows IH]; intros fg fg'; simpl.
  - intros [= <-]. rewrite !app_nil_r. destruct fg. reflexivity.
  - destruct (Main.rahat_body districts row fg) as [fg1|e] eqn:Hb; simpl;
      [|discriminate].
    intros Hrest. apply IH in Hrest. apply rahat_body_kept in Hb. subst fg1 fg'.
    simpl. rewrite !app_assoc. reflexivity.
Qed.

Lemma add_markers_kept (rows : list Series) (fg : Main.FeatureGroups) :
  Main.add_markers districts rows Main.no_markers = Ok fg ->
  fg = Main.mkGroups
         (flat_map (kept_marker districts "Lat1" "Long1" "IMD" "green") rows
          ++ flat_map (kept_marker districts "Lat2" "Long2" "Rahat" "orange") rows)
         (flat_map (kept_marker districts "Lat1" "Long1" "IMD" "green") rows)
         (flat_map (kept_marker districts "Lat2" "Long2" "Rahat" "orange") rows).
Proof.
  unfold Main.add_markers.
  destruct (for_each (Main.imd_body districts) rows Main.no_markers) as [fg1|e] eqn:Himd;
    simpl; [|discriminate].
  intros Hrahat. apply imd_loop_kept in Himd. apply rahat_loop_kept in Hrahat.
  subst fg1 fg. reflexivity.
Qed.

Lemma kept_marker_from (latc lonc kind colour : string) (row : Series)
      (m : Main.CircleMarker) :
  In m (kept_marker districts latc lonc kind colour row) ->
  exists lat lon r,
    getitem row latc = Ok lat /\ getitem row lonc = Ok lon
    /\ Main.location m = (lat, lon)
    /\ notna lat = true /\ notna lon = true /\ valid_pair lat lon = true
    /\ In r districts /\ contains (geometry r) (mkPoint lon lat) = true
    /\ Main.get_district_name districts lat lon = title (name r)
    /\ Main.popup m = "District: " ++ title (name r) ++ "<br>Type: " ++ kind
    /\ Main.color m = colour.
Proof.
  unfold kept_marker. cbv zeta.
  destruct (getitem row latc) as [lat|e]; [|intros []].
  destruct (getitem row lonc) as [lon|e]; [|intros []].
  destruct (notna lat) eqn:Hlat; [|intros []].
  destruct (notna lon) eqn:Hlon; [|intros []].
  destruct (contains_str ["District out of UP"; "Invalid Coordinates"]
                         (Main.get_district_name districts lat lon)) eqn:Hs;
    simpl; [intros []|].
  intros [<-|[]].
  destruct (main_named_region lat lon Hs) as [Hv [r [Hin [Hr Hname]]]].
  exists lat, lon, r. simpl. rewrite Hname. repeat split; auto.
Qed.

Lemma imd_body_Ok (row : Series) (fg : Main.FeatureGroups) :
  In "Lat1" (index row) -> In "Long1" (index row) ->
  exists fg', Main.imd_body districts row fg = Ok fg'.
Proof.
  intros Hlat Hlon. unfold Main.imd_body, Py.bind.
  destruct (getitem_In row "Lat1" Hlat) as [lat ->].
  destruct (notna lat); [|eauto].
  destruct (getitem_In row "Long1" Hlon) as [lon ->].
  destruct (notna lon); [|eauto].
  destruct (negb _); eauto.
Qed.

Lemma rahat_body_Ok (row : Series) (fg : Main.FeatureGroups) :
  In "Lat2" (index row) -> In "Long2" (index row) ->
  exists fg', Main.rahat_body districts row fg = Ok fg'.
Proof.
  intros Hlat Hlon. unfold Main.rahat_body, Py.bind.
  destruct (getitem_In row "Lat2" Hlat) as [lat ->].
  destruct (notna lat); [|eauto].
  destruct (getitem_In row "Long2" Hlon) as [lon ->].
  destruct (notna lon); [|eauto].
  destruct (negb _); eauto.
Qed.

Lemma add_markers_Ok (data : DataFrame) :
  has_reading_columns data ->
  exists fg, Main.add_markers districts (iterrows data) Main.no_markers = Ok fg.
Proof.
  intros Hcols. unfold Main.add_markers.
  assert (Hcol : forall col, In col Main.required_cols ->
                             Forall (fun row => In col (index row)) (iterrows data)).
  { intros col. apply has_reading_columns_rows. exact Hcols. }
  pose proof (Hcol "Lat1" ltac:(simpl; auto)) as H1.
  pose proof (Hcol "Long1" ltac:(simpl; auto)) as H2.
  pose proof (Hcol "Lat2" ltac:(simpl; auto)) as H3.
  pose proof (Hcol "Long2" ltac:(simpl; auto 10)) as H4.
  rewrite Forall_forall in H1, H2, H3, H4.
  destruct (for_each_total (Main.imd_body districts) (iterrows data)) with (s := Main.no_markers)
    as [fg1 ->].
  { apply Forall_forall. intros row Hrow s. apply imd_body_Ok; auto. }
  simpl. apply for_each_total.
  apply Forall_forall. intros row Hrow s. apply rahat_body_Ok; auto.
Qed.

End MainLoops.

(** X1: when the readings table has its four columns but the boundary table
    has neither a [district] nor a [DISTRICT] column, [main.py] prints the
    GeoJSON diagnostic and exits with status 1; no row is read and no map
    is saved. *)
Theorem main_exits_without_name_column {G : Type} `{Geometry G}
        (districts : GeoDataFrame G) (data : DataFrame) :
  has_reading_columns data ->
  ~ In "district" (gcolumns districts) -> ~ In "DISTRICT" (gcolumns districts) ->
  Main.run districts data
  = Exited ["Error: No 'district' or 'DISTRICT' column found in GeoJSON."] 1.
Proof.
  intros Hcols Hd HD. unfold Main.run.
  rewrite (has_reading_columns_forallb _ Hcols). simpl.
  rewrite (main_district_name_col_None _ Hd HD). reflexivity.
Qed.

Lemma main_exits_without_name_column_witness :
  Main.run (mkGeoDataFrame ["NAME"; "geometry"] [mkFeature "Lucknow" lucknow_box])
           (readings [reading 26.5 80.5 26.5 80.5])
  = Exited ["Error: No 'district' or 'DISTRICT' column found in GeoJSON."] 1.
Proof.
  apply (main_exits_without_name_column
           (mkGeoDataFrame ["NAME"; "geometry"] [mkFeature "Lucknow" lucknow_box])).
  - repeat (apply Forall_cons; [simpl; auto 10|]). apply Forall_nil.
  - simpl. intros [Heq|[Heq|[]]]; discriminate.
  - simpl. intros [Heq|[Heq|[]]]; discriminate.
Defined.

(** X2: on a map saved by [main.py] the IMD group holds, in the order of
    the readings, one marker for each reading whose Lat1/Long1 cells are
    both not NaN and answered with a district name, built from that pair
    and that name, and no other marker; the Rahat group likewise from
    Lat2/Long2; the combined group holds the IMD markers followed by the
    Rahat markers. *)
Theorem main_groups_follow_readings {G : Type} `{Geometry G}
        (districts : GeoDataFrame G) (data : DataFrame)
        (stdout : list string) (fg : Main.FeatureGroups) :
  Main.run districts data = Finished stdout fg ->
  Main.imd_fg fg
  = flat_map (kept_marker (Main.standardize (features districts))
                          "Lat1" "Long1" "IMD" "green") (iterrows data)
  /\ Main.rahat_fg fg
     = flat_map (kept_marker (Main.standardize (features districts))
                             "Lat2" "Long2" "Rahat" "orange") (iterrows data)
  /\ Main.districts_fg fg = (Main.imd_fg fg ++ Main.rahat_fg fg)%list.
Proof.
  unfold Main.run.
  destruct (negb (forallb (contains_str (columns data)) Main.required_cols));
    [discriminate|].
  destruct (Main.district_name_col districts); [|discriminate].
  destruct (Main.add_markers (Main.standardize (features districts)) (iterrows data)
                             Main.no_markers) as [fg0|e] eqn:Hfg; [|discriminate].
  intros [= _ <-]. apply add_markers_kept in Hfg. subst fg0. simpl. auto.
Qed.

Lemma main_groups_follow_readings_witness :
  [Main.mkMarker (26.5, 80.5)%float "District: Lucknow<br>Type: IMD" "green"]
  = flat_map (kept_marker (Main.standardize (features lucknow))
                          "Lat1" "Long1" "IMD" "green")
             (iterrows (readings [reading 26.5 80.5 26.5 80; reading 95 80.5 nan nan])).
Proof.
  apply (main_groups_follow_readings lucknow
           (readings [reading 26.5 80.5 26.5 80; reading 95 80.5 nan nan])
           ["âœ… Custom toggle map saved as 'custom_control_map.html'"]
           (Main.mkGroups
              [Main.mkMarker (26.5, 80.5)%float "District: Lucknow<br>Type: IMD" "green"]
              [Main.mkMarker (26.5, 80.5)%float "District: Lucknow<br>Type: IMD" "green"]
              [])).
  vm_compute. reflexivity.
Defined.

(** X3: every marker on a map saved by [main.py] comes from a reading of the
    table: an IMD marker sits on the Lat1/Long1 pair of some row, a Rahat
    marker on the Lat2/Long2 pair of some row; both cells are not NaN, the
    pair is within the coordinate range and strictly inside the polygon of
    the boundary row whose title-cased name is the answer of
    [get_district_name] and is shown in the popup; IMD markers are green,
    Rahat markers orange. *)
Theorem main_markers_come_from_readings {G : Type} `{Geometry G}
        (districts : GeoDataFrame G) (data : DataFrame)
        (stdout : list string) (fg : Main.FeatureGroups) :
  Main.run districts data = Finished stdout fg ->
  Forall (placed_from (Main.standardize (features districts)) data
                      "Lat1" "Long1" "IMD" "green") (Main.imd_fg fg)
  /\ Forall (placed_from (Main.standardize (features districts)) data
                         "Lat2" "Long2" "Rahat" "orange") (Main.rahat_fg fg).
Proof.
  unfold Main.run.
  destruct (negb (forallb (contains_str (columns data)) Main.required_cols));
    [discriminate|].
  destruct (Main.district_name_col districts); [|discriminate].
  destruct (Main.add_markers (Main.standardize (features districts)) (iterrows data)
                             Main.no_markers) as [fg0|e] eqn:Hfg; [|discriminate].
  intros [= _ <-]. apply add_markers_kept in Hfg. subst fg0. simpl.
  split; apply Forall_forall; intros m Hm; apply in_flat_map in Hm;
    destruct Hm as [row [Hrow Hm]]; apply kept_marker_from in Hm;
    destruct Hm as [lat [lon [r Hm]]]; exists row, lat, lon, r; tauto.
Qed.

Lemma main_markers_come_from_readings_witness :
  Forall (placed_from (Main.standardize (features lucknow))
                      (readings [reading 26.5 80.5 26.5 80; reading 95 80.5 nan nan])
                      "Lat1" "Long1" "IMD" "green")
         [Main.mkMarker (26.5, 80.5)%float "District: Lucknow<br>Type: IMD" "green"].
Proof.
  apply (main_markers_come_from_readings lucknow
           (readings [reading 26.5 80.5 26.5 80; reading 95 80.5 nan nan])
           ["âœ… Custom toggle map saved as 'custom_control_map.html'"]
           (Main.mkGroups
              [Main.mkMarker (26.5, 80.5)%float "District: Lucknow<br>Type: IMD" "green"]
              [Main.mkMarker (26.5, 80.5)%float "District: Lucknow<br>Type: IMD" "green"]
              [])).
  vm_compute. reflexivity.
Defined.

(** X4: [get_district_name] of [main.py] answers "District out of UP"
    exactly when the pair is within the coordinate range and no polygon of
    the table contains it; a title-cased district name can never be mistaken
    for that answer. *)
Theorem main_out_of_region_iff {G : Type} `{Geometry G}
        (districts : list (Feature G)) (lat lon : float) :
  Main.get_district_name districts lat lon = "District out of UP"
  <-> valid_pair lat lon = true
      /\ forall r, In r districts -> contains (geometry r) (mkPoint lon lat) = false.
Proof.
  split.
  - unfold Main.get_district_name. fold (valid_pair lat lon).
    destruct (valid_pair lat lon); simpl; [|discriminate].
    intros Hs. split; [reflexivity|].
    destruct (main_scan_cases districts (mkPoint lon lat))
      as [[_ Hnone]|[r [_ [_ Hname]]]]; [exact Hnone|].
    exfalso. apply (title_not_out_of_UP (name r)). congruence.
  - intros [Hv Hnone]. rewrite (main_get_district_name_valid _ _ _ Hv).
    apply scan_none. exact Hnone.
Qed.

(** X5: a district whose title-cased name is the text "Invalid Coordinates"
    is treated by [main.py] as the invalid answer: a reading strictly inside
    its polygon, with no earlier polygon containing it, gets no marker. *)
Theorem main_sentinel_named_district_gets_no_marker {G : Type} `{Geometry G}
        (before after : list (Feature G)) (r : Feature G)
        (row : Series) (lat lon : float) :
  getitem row "Lat1" = Ok lat -> getitem row "Long1" = Ok lon ->
  valid_pair lat lon = true ->
  (forall r', In r' before -> contains (geometry r') (mkPoint lon lat) = false) ->
  contains (geometry r) (mkPoint lon lat) = true ->
  title (name r) = "Invalid Coordinates" ->
  Main.get_district_name (before ++ r :: after)%list lat lon = "Invalid Coordinates"
  /\ forall fg, Main.imd_body (before ++ r :: after)%list row fg = Ok fg.
Proof.
  intros Hlat Hlon Hv Hbefore Hr Hname.
  assert (Hd : Main.get_district_name (before ++ r :: after)%list lat lon
               = "Invalid Coordinates").
  { rewrite (main_get_district_name_valid _ _ _ Hv). rewrite <- Hname.
    apply scan_first; assumption. }
  split; [exact Hd|]. intros fg. unfold Main.imd_body, Py.bind.
  rewrite Hlat. destruct (notna lat); [|reflexivity].
  rewrite Hlon. destruct (notna lon); [|reflexivity].
  rewrite Hd. reflexivity.
Qed.

Lemma main_sentinel_named_district_gets_no_marker_witness :
  Main.get_district_name [mkFeature "invalid coordinates" lucknow_box] 26.5 80.5
  = "Invalid Coordinates"
  /\ forall fg,
      Main.imd_body [mkFeature "invalid coordinates" lucknow_box]
                    (mkSeries ["Lat1"; "Long1"; "Lat2"; "Long2"]
                              (reading 26.5 80.5 nan nan)) fg
      = Ok fg.
Proof.
  apply (main_sentinel_named_district_gets_no_marker
           [] [] (mkFeature "invalid coordinates" lucknow_box)
           (mkSeries ["Lat1"; "Long1"; "Lat2"; "Long2"] (reading 26.5 80.5 nan nan))
           26.5 80.5); try reflexivity.
  intros r' [].
Defined.

(** X6: on a boundary table whose names are ASCII and a pair within the
    coordinate range the two scripts agree: [main.py] answers the
    title-cased form of the name [terra.py] answers, and "District out of
    UP" where [terra.py] answers [None]. *)
Theorem scripts_agree_on_valid_pairs {G : Type} `{Geometry G}
        (districts : list (Feature G)) (lat lon : float) :
  ascii_names districts ->
  valid_pair lat lon = true ->
  Main.get_district_name (Main.standardize districts) lat lon
  = match Terra.get_district_name districts lat lon with
    | Some n => title n
    | None => "District out of UP"
    end.
Proof.
  intros _ Hv. rewrite (main_get_district_name_valid _ _ _ Hv).
  rewrite main_scan_standardize. unfold Terra.get_district_name.
  induction districts as [|b rows IH]; simpl; [reflexivity|].
  destruct (contains (geometry b) (mkPoint lon lat)); [reflexivity|exact IH].
Qed.

Lemma scripts_agree_on_valid_pairs_witness :
  Main.get_district_name (Main.standardize (features overlapping)) 27.5 78.5
  = match Terra.get_district_name (features overlapping) 27.5 78.5 with
    | Some n => title n
    | None => "District out of UP"
    end.
Proof.
  apply (scripts_agree_on_valid_pairs (features overlapping) 27.5 78.5).
  - repeat constructor.
  - reflexivity.
Defined.

(** * Further properties of terra.py *)

Lemma loc_not_In (labels : list string) (cells : list float) (key : string) :
  ~ In key labels -> loc labels cells key = Raise (KeyError key).
Proof.
  revert cells. induction labels as [|l labels IH]; intros cells Hn; simpl;
    [reflexivity|].
  destruct (String.eqb_spec l key) as [Heq|Hne].
  - exfalso. apply Hn. left. exact Heq.
  - apply IH. intros Hin. apply Hn. right. exact Hin.
Qed.

Lemma terra_name_column_present {G : Type} (districts : GeoDataFrame G) :
  has_name_column districts ->
  Terra.name_column districts = Ok (map name (features districts)).
Proof.
  unfold has_name_column, Terra.name_column, Terra.district_name_col.
  intros Hname.
  destruct (contains_str (gcolumns districts) "district") eqn:Hd.
  - rewrite Hd. reflexivity.
  - destruct Hname as [Hin|Hin]; apply contains_str_In in Hin; [congruence|].
    rewrite Hin. reflexivity.
Qed.

Lemma has_name_column_terra {G : Type} (districts : GeoDataFrame G) :
  has_name_column districts ->
  In (Terra.district_name_col districts) (gcolumns districts).
Proof.
  unfold has_name_column, Terra.district_name_col. intros Hname.
  destruct (contains_str (gcolumns districts) "district") eqn:Hd.
  - apply contains_str_In. exact Hd.
  - destruct Hname as [Hin|Hin]; [|exact Hin].
    apply contains_str_In in Hin. congruence.
Qed.



Section Tally.
Context {G : Type} `{Geometry G}.
Variable districts : list (Feature G).
Variables latc lonc : string.
Variable f : Terra.Counts -> Terra.Counts.


(** A measure [g] of the inner dictionaries that each bump raises by
    [delta] is raised, summed over the dictionary, by [delta] for every row
    that is counted. *)
Lemma dict_set_sum (g : Terra.Counts -> nat) (d : dict Terra.Counts)
      (k : string) (v v' : Terra.Counts) :
  dict_get d k = Ok v ->
  list_sum (map (fun item => g (snd item)) (dict_set d k v')) + g v
  = list_sum (map (fun item => g (snd item)) d) + g v'.
Proof.
  induction d as [|[k0 v0] d IH]; simpl; [discriminate|].
  destruct (String.eqb_spec k0 k) as [Heq|Hne]; simpl.
  - intros [= ->]. lia.
  - intros Hv. specialize (IH Hv). lia.
Qed.

Lemma for_each_event_body_sum (g : Terra.Counts -> nat) (delta : nat)
      (rows : list Series) :
  (forall v, g (f v) = g v + delta) ->
  forall counts counts',
    for_each (event_body districts latc lonc f) rows counts = Ok counts' ->
    list_sum (map (fun item => g (snd item)) counts')
    = list_sum (map (fun item => g (snd item)) counts)
      + delta * List.length
                  (filter (fun row => happened (pair_event districts row latc lonc)) rows).
Proof.
  intros Hg. induction rows as [|row rows IH]; intros counts counts'; simpl.
  - intros [= <-]. lia.
  - destruct (event_body districts latc lonc f row counts) as [c1|e] eqn:Hb; simpl;
      [|discriminate].
    intros Hrest. rewrite (IH _ _ Hrest). unfold event_body in Hb.
    destruct (pair_event districts row latc lonc) as [[d|]|e]; simpl in *.
    + unfold bump in Hb.
      destruct (dict_get counts d) as [v|e] eqn:Hv; simpl in Hb; [|discriminate].
      injection Hb as <-. pose proof (dict_set_sum g counts d v (f v) Hv) as Hsum.
      rewrite Hg in Hsum. lia.
    + injection Hb as <-. lia.
    + discriminate.
Qed.

End Tally.

Lemma filter_absorb {A : Type} (p q : A -> bool) (l : list A) :
  (forall a, p a = true -> q a = true) -> filter p (filter q l) = filter p l.
Proof.
  intros Hpq. induction l as [|a l IH]; simpl; [reflexivity|].
  destruct (q a) eqn:Hq; simpl.
  - rewrite IH. reflexivity.
  - destruct (p a) eqn:Hp; [|exact IH]. apply Hpq in Hp. congruence.
Qed.

Lemma filter_twice {A : Type} (p q : A -> bool) (l : list A) :
  filter p (filter q l) = filter (fun a => q a && p a) l.
Proof.
  induction l as [|a l IH]; simpl; [reflexivity|].
  destruct (q a); simpl; [destruct (p a); rewrite IH; reflexivity|exact IH].
Qed.

Lemma filter_all {A : Type} (p : A -> bool) (l : list A) :
  (forall a, p a = true) -> filter p l = l.
Proof.
  intros Hp. induction l as [|a l IH]; simpl; [reflexivity|].
  rewrite Hp, IH. reflexivity.
Qed.

Lemma new_counts_keys_from (names : list string) :
  forall d : dict Terra.Counts,
    keys (fold_left (fun d district => dict_set d district (Terra.mkCounts 0 0)) names d)
    = (keys d ++ filter (fun n => negb (contains_str (keys d) n)) (unique names))%list.
Proof.
  induction names as [|n names IH]; intros d; simpl.
  - rewrite app_nil_r. reflexivity.
  - rewrite IH. destruct (contains_str (keys d) n) eqn:Hn; simpl.
    + apply contains_str_In in Hn.
      rewrite (keys_dict_set_present _ _ _ Hn). f_equal.
      symmetry. apply filter_absorb. intros a Ha.
      destruct (String.eqb_spec a n) as [->|Hne]; [|reflexivity].
      apply contains_str_In in Hn. rewrite Hn in Ha. discriminate.
    + assert (Hnin : ~ In n (keys d)).
      { intros Hin. apply contains_str_In in Hin. congruence. }
      rewrite (keys_dict_set_absent _ _ _ Hnin). rewrite <- app_assoc. simpl.
      f_equal. f_equal. rewrite filter_twice. apply filter_ext. intros a.
      unfold contains_str. rewrite existsb_app. simpl.
      rewrite orb_false_r, negb_orb. apply andb_comm.
Qed.

Lemma new_counts_keys (names : list string) :
  keys (Terra.new_counts names) = unique names.
Proof.
  unfold Terra.new_counts. rewrite new_counts_keys_from. simpl.
  apply filter_all. reflexivity.
Qed.

Lemma new_counts_values (names : list string) :
  Forall (fun item => snd item = Terra.mkCounts 0 0) (Terra.new_counts names).
Proof.
  destruct (new_counts_spec names) as [Hnd [_ Hzero]].
  apply Forall_forall. intros [k v] Hin. simpl.
  apply (Hzero k). apply dict_get_NoDup; assumption.
Qed.

Lemma output_df_zero (counts : dict Terra.Counts) :
  Forall (fun item => snd item = Terra.mkCounts 0 0) counts ->
  Terra.output_df counts = map (fun n => Terra.mkOutputRow n 0 0) (keys counts).
Proof.
  induction 1 as [|[k v] counts Hv _ IH]; simpl; [reflexivity|].
  simpl in Hv. subst v. f_equal. exact IH.
Qed.

Lemma list_sum_zero {A : Type} (g : A -> nat) (l : list A) :
  Forall (fun a => g a = 0) l -> list_sum (map g l) = 0.
Proof.
  induction 1 as [|a l Ha _ IH]; simpl; [reflexivity|]. rewrite Ha, IH. reflexivity.
Qed.

(** X7: when the boundary table has neither a [district] nor a [DISTRICT]
    column, [terra.py] ends with [KeyError: 'DISTRICT'] while building
    [counts], whatever the readings table holds; nothing is written. *)
Theorem terra_raises_without_name_column {G : Type} `{Geometry G}
        (districts : GeoDataFrame G) (data : DataFrame) :
  ~ In "district" (gcolumns districts) -> ~ In "DISTRICT" (gcolumns districts) ->
  Terra.run districts data = Uncaught (KeyError "DISTRICT").
Proof.
  intros Hd HD. unfold Terra.run, Terra.name_column, Terra.district_name_col.
  destruct (contains_str (gcolumns districts) "district") eqn:Ed.
  - exfalso. apply Hd. apply contains_str_In. exact Ed.
  - destruct (contains_str (gcolumns districts) "DISTRICT") eqn:ED; [|reflexivity].
    exfalso. apply HD. apply contains_str_In. exact ED.
Qed.

Lemma terra_raises_without_name_column_witness :
  Terra.run (mkGeoDataFrame ["NAME"; "geometry"] [mkFeature "Lucknow" lucknow_box])
            (readings [reading 26.5 80.5 26.5 80.5])
  = Uncaught (KeyError "DISTRICT").
Proof.
  apply (terra_raises_without_name_column
           (mkGeoDataFrame ["NAME"; "geometry"] [mkFeature "Lucknow" lucknow_box])).
  - simpl. intros [Heq|[Heq|[]]]; discriminate.
  - simpl. intros [Heq|[Heq|[]]]; discriminate.
Defined.



(** X9: [terra.py] counts every looked-up pair exactly once: the Green
    column of the spreadsheet adds up to the number of readings whose
    Lat1/Long1 pair is counted under some district, and the Red column to
    that number for Lat2/Long2. *)
Theorem terra_column_totals {G : Type} `{Geometry G}
        (districts : GeoDataFrame G) (data : DataFrame) :
  has_reading_columns data -> has_name_column districts ->
  exists stdout table,
    Terra.run districts data = Finished stdout table
    /\ list_sum (map Terra.Green_Markers table)
       = List.length
           (filter (fun row => happened (pair_event (features districts) row "Lat1" "Long1"))
                   (iterrows data))
    /\ list_sum (map Terra.Red_Markers table)
       = List.length
           (filter (fun row => happened (pair_event (features districts) row "Lat2" "Long2"))
                   (iterrows data)).
Proof.
  intros Hcols Hname. unfold Terra.run.
  rewrite (terra_name_column_present _ Hname).
  set (c0 := Terra.new_counts (map name (features districts))).
  destruct (count_markers_Ok districts data c0 Hcols (new_counts_covers_names districts))
    as [c1 [c2 [Hgreen [Hred Hrun]]]].
  rewrite Hrun. eexists. exists (Terra.output_df c2). split; [reflexivity|].
  unfold Terra.output_df. rewrite !map_map. simpl.
  assert (Hzero : forall g : Terra.Counts -> nat,
            g (Terra.mkCounts 0 0) = 0 ->
            list_sum (map (fun item => g (snd item)) c0) = 0).
  { intros g Hg. apply list_sum_zero.
    eapply Forall_impl; [|apply new_counts_values].
    intros item Hitem. simpl in Hitem. rewrite Hitem. exact Hg. }
  split.
  - rewrite (for_each_event_body_sum _ _ _ bump_red Terra.Green 0 _
               (fun v => eq_sym (Nat.add_0_r _)) _ _ Hred).
    rewrite (for_each_event_body_sum _ _ _ bump_green Terra.Green 1 _
               (fun v => eq_refl) _ _ Hgreen).
    rewrite (Hzero Terra.Green eq_refl). lia.
  - rewrite (for_each_event_body_sum _ _ _ bump_red Terra.Red 1 _
               (fun v => eq_refl) _ _ Hred).
    rewrite (for_each_event_body_sum _ _ _ bump_green Terra.Red 0 _
               (fun v => eq_sym (Nat.add_0_r _)) _ _ Hgreen).
    rewrite (Hzero Terra.Red eq_refl). lia.
Qed.

Lemma terra_column_totals_witness :
  exists stdout table,
    Terra.run overlapping (readings [reading 27.5 78.5 nan 78.5; reading 95 78.5 28.5 79.5])
    = Finished stdout table
    /\ list_sum (map Terra.Green_Markers table)
       = List.length
           (filter (fun row => happened (pair_event (features overlapping) row "Lat1" "Long1"))
                   (iterrows (readings [reading 27.5 78.5 nan 78.5;
                                        reading 95 78.5 28.5 79.5])))
    /\ list_sum (map Terra.Red_Markers table)
       = List.length
           (filter (fun row => happened (pair_event (features overlapping) row "Lat2" "Long2"))
                   (iterrows (readings [reading 27.5 78.5 nan 78.5;
                                        reading 95 78.5 28.5 79.5]))).
Proof.
  apply (terra_column_totals overlapping
           (readings [reading 27.5 78.5 nan 78.5; reading 95 78.5 28.5 79.5])).
  - repeat (apply Forall_cons; [simpl; auto 10|]). apply Forall_nil.
  - left. simpl. auto.
Defined.

(** X10: the rows of the spreadsheet of [terra.py] follow the boundary file:
    the District column lists the names of the name column in the order of
    their first occurrence, a repeated name appearing once. *)
Theorem terra_table_in_file_order {G : Type} `{Geometry G}
        (districts : GeoDataFrame G) (data : DataFrame) :
  has_reading_columns data -> has_name_column districts ->
  exists stdout table,
    Terra.run districts data = Finished stdout table
    /\ map Terra.District table = unique (map name (features districts)).
Proof.
  intros Hcols Hname. unfold Terra.run.
  rewrite (terra_name_column_present _ Hname).
  set (c0 := Terra.new_counts (map name (features districts))).
  destruct (count_markers_Ok districts data c0 Hcols (new_counts_covers_names districts))
    as [c1 [c2 [Hgreen [Hred Hrun]]]].
  rewrite Hrun. eexists. exists (Terra.output_df c2). split; [reflexivity|].
  unfold Terra.output_df. rewrite map_map. change (keys c2 = unique (map name (features districts))).
  rewrite (for_each_event_body_keys _ _ _ _ _ _ _ Hred).
  rewrite (for_each_event_body_keys _ _ _ _ _ _ _ Hgreen).
  apply new_counts_keys.
Qed.

Lemma terra_table_in_file_order_witness :
  exists stdout table,
    Terra.run (mkGeoDataFrame ["district"; "geometry"]
                 [mkFeature "agra" (box 77 26 79 28);
                  mkFeature "etah" (box 90 10 91 11);
                  mkFeature "agra" (box 70 20 71 21)])
              (readings [reading 20.5 70.5 nan nan])
    = Finished stdout table
    /\ map Terra.District table = ["agra"; "etah"].
Proof.
  apply (terra_table_in_file_order
           (mkGeoDataFrame ["district"; "geometry"]
              [mkFeature "agra" (box 77 26 79 28);
               mkFeature "etah" (box 90 10 91 11);
               mkFeature "agra" (box 70 20 71 21)])
           (readings [reading 20.5 70.5 nan nan])).
  - repeat (apply Forall_cons; [simpl; auto 10|]). apply Forall_nil.
  - left. simpl. auto.
Defined.

(** X11: on a readings table without rows, whatever its columns are,
    [terra.py] ends normally and writes one row per distinct district with
    0 green and 0 red markers. *)
Theorem terra_empty_table {G : Type} `{Geometry G}
        (districts : GeoDataFrame G) (cols : list string) :
  has_name_column districts ->
  Terra.run districts (mkDataFrame cols [])
  = Finished ["✅ Excel file 'district_marker_counts.xlsx' has been created."]
             (map (fun n => Terra.mkOutputRow n 0 0)
                  (unique (map name (features districts)))).
Proof.
  intros Hname. unfold Terra.run.
  rewrite (terra_name_column_present _ Hname). simpl.
  rewrite (output_df_zero _ (new_counts_values _)), new_counts_keys. reflexivity.
Qed.

Lemma terra_empty_table_witness :
  Terra.run overlapping (mkDataFrame ["station"] [])
  = Finished ["✅ Excel file 'district_marker_counts.xlsx' has been created."]
             [Terra.mkOutputRow "agra" 0 0; Terra.mkOutputRow "mathura" 0 0;
              Terra.mkOutputRow "etah" 0 0].
Proof.
  apply (terra_empty_table overlapping ["station"]). left. simpl. auto.
Defined.

(** X12: [terra.py] does not check the columns of the readings table.  With
    at least one reading, a missing Lat1 column ends the run with
    [KeyError: 'Lat1'] at the first reading; with Lat1 and Long1 there and
    Lat2 missing, the green loop completes and the red loop ends the run
    with [KeyError: 'Lat2'].  Nothing is written in either case. *)
Theorem terra_missing_latitude_column_raises {G : Type} `{Geometry G}
        (districts : GeoDataFrame G) (cols : list string)
        (cells : list float) (rest : list (list float)) :
  has_name_column districts ->
  (~ In "Lat1" cols ->
   Terra.run districts (mkDataFrame cols (cells :: rest)) = Uncaught (KeyError "Lat1"))
  /\ (In "Lat1" cols -> In "Long1" cols -> ~ In "Lat2" cols ->
      Terra.run districts (mkDataFrame cols (cells :: rest)) = Uncaught (KeyError "Lat2")).
Proof.
  intros Hname. unfold Terra.run.
  rewrite (terra_name_column_present _ Hname).
  unfold Terra.count_markers, iterrows. simpl. split.
  - intros Hmiss. unfold Terra.green_body at 1, getitem. simpl.
    rewrite (loc_not_In _ _ _ Hmiss). reflexivity.
  - intros Hlat1 Hlong1 Hmiss.
    destruct (for_each_event_body_Ok (features districts) "Lat1" "Long1" bump_green
                (map (mkSeries cols) (cells :: rest))) with
      (counts := Terra.new_counts (map name (features districts))) as [c1 Hc1].
    + apply Forall_forall. intros row Hrow. apply in_map_iff in Hrow.
      destruct Hrow as [c [<- _]]. simpl. auto.
    + apply new_counts_covers_names.
    + rewrite <- green_loop_event in Hc1. simpl in Hc1. rewrite Hc1. simpl.
      unfold Terra.red_body at 1, getitem. simpl.
      rewrite (loc_not_In _ _ _ Hmiss). reflexivity.
Qed.

Lemma terra_missing_latitude_column_raises_witness :
  Terra.run lucknow (mkDataFrame ["Lat1"; "Long1"] [[26.5; 80.5]%float; [nan; nan]%float])
  = Uncaught (KeyError "Lat2").
Proof.
  apply (terra_missing_latitude_column_raises lucknow ["Lat1"; "Long1"]
           [26.5; 80.5]%float [[nan; nan]%float]).
  - right. simpl. auto.
  - simpl. auto.
  - simpl. auto.
  - simpl. intros [Heq|[Heq|[]]]; discriminate.
Defined.

(** X13: a district whose name is the empty string is never counted by
    [terra.py]: a pair inside its polygon, with no earlier polygon
    containing it, is looked up to [''], which the loops take as false, and
    the counters stay as they are. *)
Theorem terra_unnamed_district_never_counted {G : Type} `{Geometry G}
        (before after : list (Feature G)) (r : Feature G)
        (row : Series) (lat lon : float) :
  (forall r', In r' before -> contains (geometry r') (mkPoint lon lat) = false) ->
  contains (geometry r) (mkPoint lon lat) = true ->
  name r = "" ->
  Terra.get_district_name (before ++ r :: after)%list lat lon = Some ""
  /\ (getitem row "Lat1" = Ok lat -> getitem row "Long1" = Ok lon ->
      forall counts, Terra.green_body (before ++ r :: after)%list row counts = Ok counts)
  /\ (getitem row "Lat2" = Ok lat -> getitem row "Long2" = Ok lon ->
      forall counts, Terra.red_body (before ++ r :: after)%list row counts = Ok counts).
Proof.
  intros Hbefore Hr Hname.
  assert (Hd : Terra.get_district_name (before ++ r :: after)%list lat lon = Some "").
  { rewrite <- Hname. apply scan_first; assumption. }
  split; [exact Hd|]. split; intros Hlat Hlon counts.
  - unfold Terra.green_body, Py.bind. rewrite Hlat.
    destruct (notna lat); [|reflexivity]. rewrite Hlon.
    destruct (notna lon); [|reflexivity]. rewrite Hd. reflexivity.
  - unfold Terra.red_body, Py.bind. rewrite Hlat.
    destruct (notna lat); [|reflexivity]. rewrite Hlon.
    destruct (notna lon); [|reflexivity]. rewrite Hd. reflexivity.
Qed.

Lemma terra_unnamed_district_never_counted_witness :
  Terra.get_district_name [mkFeature "" lucknow_box] 26.5 80.5 = Some ""
  /\ Terra.run (mkGeoDataFrame ["district"] [mkFeature "" lucknow_box])
               (readings [reading 26.5 80.5 26.5 80.5])
     = Finished ["✅ Excel file 'district_marker_counts.xlsx' has been created."]
                [Terra.mkOutputRow "" 0 0].
Proof.
  split; [|vm_compute; reflexivity].
  apply (terra_unnamed_district_never_counted
           [] [] (mkFeature "" lucknow_box)
           (mkSeries ["Lat1"; "Long1"; "Lat2"; "Long2"] (reading 26.5 80.5 26.5 80.5))
           26.5 80.5); try reflexivity.
  intros r' [].
Defined.

(** * Further properties of scalp.py *)

Lemma dict_get_In {V : Type} (d : dict V) (k : string) (v : V) :
  dict_get d k = Ok v -> In (k, v) d.
Proof.
  induction d as [|[k0 v0] d IH]; simpl; [discriminate|].
  destruct (String.eqb_spec k0 k) as [->|Hne].
  - intros [= ->]. left. reflexivity.
  - intros Hv. right. auto.
Qed.

Lemma dict_set_In {V : Type} (d : dict V) (k : string) (v : V) (k' : string) (v' : V) :
  NoDup (keys d) -> In (k', v') (dict_set d k v) ->
  (k' = k /\ v' = v) \/ (In (k', v') d /\ k' <> k).
Proof.
  induction d as [|[k0 v0] d IH]; simpl; intros Hnd Hin.
  - destruct Hin as [[= <- <-]|[]]. auto.
  - inversion Hnd as [|? ? Hnotin Hnd']; subst.
    destruct (String.eqb_spec k0 k) as [->|Hne].
    + destruct Hin as [[= <- <-]|Hin]; [auto|]. right. split; [right; exact Hin|].
      intros ->. apply Hnotin. apply (in_map fst) in Hin. exact Hin.
    + destruct Hin as [[= <- <-]|Hin]; [right; split; [left; reflexivity|exact Hne]|].
      destruct (IH Hnd' Hin) as [Heq|[Hin' Hk]]; [auto|]. right. split; [right|]; assumption.
Qed.

Lemma dict_set_absent {V : Type} (d : dict V) (k : string) (v : V) :
  ~ In k (keys d) -> dict_set d k v = (d ++ [(k, v)])%list.
Proof.
  induction d as [|[k0 v0] d IH]; simpl; [reflexivity|]. intros Hn.
  destruct (String.eqb_spec k0 k) as [Heq|Hne].
  - exfalso. apply Hn. left. exact Heq.
  - rewrite IH; [reflexivity|]. intros Hin. apply Hn. right. exact Hin.
Qed.

Lemma dict_set_split {V : Type} (d : dict V) (k : string) (v v' : V) :
  dict_get d k = Ok v ->
  exists l1 l2, d = (l1 ++ (k, v) :: l2)%list
                /\ dict_set d k v' = (l1 ++ (k, v') :: l2)%list.
Proof.
  induction d as [|[k0 v0] d IH]; simpl; [discriminate|].
  destruct (String.eqb_spec k0 k) as [->|Hne].
  - intros [= ->]. exists [], d. auto.
  - intros Hv. destruct (IH Hv) as [l1 [l2 [-> ->]]].
    exists ((k0, v0) :: l1), l2. auto.
Qed.

Lemma set_add_In (s : list string) (x y : string) :
  In y (Scalp.set_add s x) <-> In y s \/ y = x.
Proof.
  unfold Scalp.set_add. destruct (contains_str s x) eqn:Hx.
  - apply contains_str_In in Hx. split; [auto|]. intros [Hy| ->]; assumption.
  - rewrite in_app_iff. simpl. split; [intros [Hy|[Hy|[]]]; auto|intros [Hy|Hy]; auto].
Qed.

Lemma set_add_NoDup (s : list string) (x : string) :
  NoDup s -> NoDup (Scalp.set_add s x).
Proof.
  intros Hnd. unfold Scalp.set_add. destruct (contains_str s x) eqn:Hx; [exact Hnd|].
  apply NoDup_app; [exact Hnd|repeat constructor; intros []|].
  intros y Hy [<-|[]]. apply contains_str_In in Hy. congruence.
Qed.

Lemma insert_sorted_Permutation (x : string) (l : list string) :
  Permutation (Scalp.insert_sorted x l) (x :: l).
Proof.
  induction l as [|y l IH]; simpl; [reflexivity|].
  destruct (String.leb x y); [reflexivity|].
  rewrite IH. apply perm_swap.
Qed.

Lemma sorted_Permutation (l : list string) : Permutation (Scalp.sorted l) l.
Proof.
  induction l as [|x l IH]; simpl; [reflexivity|].
  rewrite insert_sorted_Permutation. constructor. exact IH.
Qed.

Lemma insert_sorted_Sorted (x : string) (l : list string) :
  Sorted (fun a b => String.leb a b = true) l ->
  Sorted (fun a b => String.leb a b = true) (Scalp.insert_sorted x l).
Proof.
  induction 1 as [|y l Hl IH Hhd]; simpl; [repeat constructor|].
  destruct (String.leb x y) eqn:Hxy.
  - constructor; [constructor; assumption|constructor; exact Hxy].
  - constructor; [exact IH|].
    assert (Hyx : String.leb y x = true).
    { destruct (String.leb_total x y) as [Ht|Ht]; congruence. }
    destruct l as [|z l]; simpl; [constructor; exact Hyx|].
    destruct (String.leb x z); constructor; [exact Hyx|].
    inversion Hhd; assumption.
Qed.

Lemma sorted_Sorted (l : list string) :
  Sorted (fun a b => String.leb a b = true) (Scalp.sorted l).
Proof.
  induction l as [|x l IH]; simpl; [constructor|]. apply insert_sorted_Sorted. exact IH.
Qed.

Lemma layer_names_from (groups : dict Scalp.Layers) :
  forall m : dict (list string),
    NoDup (keys m ++ keys groups) ->
    fold_left (fun m item => dict_set m (fst item)
                               [Scalp.IMD_name (snd item); Scalp.Rahat_name (snd item)])
              groups m
    = (m ++ map (fun item => (fst item,
                              [Scalp.IMD_name (snd item); Scalp.Rahat_name (snd item)]))
                groups)%list.
Proof.
  induction groups as [|[k g] groups IH]; intros m Hnd; simpl.
  - rewrite app_nil_r. reflexivity.
  - simpl in Hnd. rewrite dict_set_absent.
    + rewrite IH; [rewrite <- app_assoc; reflexivity|].
      unfold keys. rewrite map_app. simpl. rewrite <- app_assoc. exact Hnd.
    + apply NoDup_remove_2 in Hnd. intros Hin. apply Hnd. apply in_or_app. left. exact Hin.
Qed.

Lemma layer_name_map_spec (groups : dict Scalp.Layers) :
  NoDup (keys groups) ->
  Scalp.layer_name_map groups
  = map (fun item => (fst item, [Scalp.IMD_name (snd item); Scalp.Rahat_name (snd item)]))
        groups.
Proof.
  intros Hnd. unfold Scalp.layer_name_map. rewrite layer_names_from; [reflexivity|].
  exact Hnd.
Qed.

Lemma not_sentinel (d : string) :
  contains_str ["District out of UP"; "Invalid Coordinates"] d = false ->
  d <> "District out of UP" /\ d <> "Invalid Coordinates".
Proof.
  unfold contains_str. simpl. intros Hd.
  apply orb_false_iff in Hd. destruct Hd as [H1 H2].
  apply orb_false_iff in H2. destruct H2 as [H2 _].
  apply String.eqb_neq in H1, H2. auto.
Qed.

Section ScalpLoops.
Context {G : Type} `{Geometry G}.
Variable districts : list (Feature G).

Lemma scalp_scan_main (rows : list (Feature G)) (p : Point) :
  Scalp.scan rows p = Main.scan rows p.
Proof.
  induction rows as [|b rows IH]; simpl; [reflexivity|]. rewrite IH. reflexivity.
Qed.

Lemma scalp_get_district_name_main (lat lon : float) :
  Scalp.get_district_name districts lat lon = Main.get_district_name districts lat lon.
Proof.
  unfold Scalp.get_district_name, Main.get_district_name.
  rewrite scalp_scan_main. reflexivity.
Qed.

Lemma ensure_groups_keys (groups : dict Scalp.Layers) (d k : string) :
  In k (keys (Scalp.ensure_groups groups d)) <-> In k (keys groups) \/ k = d.
Proof.
  unfold Scalp.ensure_groups. destruct (contains_str (keys groups) d) eqn:Hd; simpl.
  - apply contains_str_In in Hd. split; [auto|]. intros [Hk| ->]; assumption.
  - rewrite keys_dict_set_absent.
    + rewrite in_app_iff. simpl.
      split; [intros [Hk|[Hk|[]]]; auto|intros [Hk|Hk]; auto].
    + intros Hin. apply contains_str_In in Hin. congruence.
Qed.

Lemma ensure_groups_NoDup (groups : dict Scalp.Layers) (d : string) :
  NoDup (keys groups) -> NoDup (keys (Scalp.ensure_groups groups d)).
Proof.
  intros Hnd. unfold Scalp.ensure_groups.
  destruct (contains_str (keys groups) d) eqn:Hd; simpl; [exact Hnd|].
  assert (Hnin : ~ In d (keys groups)).
  { intros Hin. apply contains_str_In in Hin. congruence. }
  rewrite keys_dict_set_absent by exact Hnin.
  apply NoDup_app; [exact Hnd|repeat constructor; intros []|].
  intros y Hy [<-|[]]. contradiction.
Qed.

Lemma ensure_groups_In (groups : dict Scalp.Layers) (d k : string) (g : Scalp.Layers) :
  In (k, g) (Scalp.ensure_groups groups d) ->
  In (k, g) groups
  \/ (k = d /\ g = Scalp.mkLayers [] [] ("IMD - " ++ d) ("Rahat - " ++ d)).
Proof.
  unfold Scalp.ensure_groups. destruct (contains_str (keys groups) d) eqn:Hd; simpl;
    [auto|].
  rewrite dict_set_absent.
  - rewrite in_app_iff. simpl. intros [Hin|[[= <- <-]|[]]]; auto.
  - intros Hin. apply contains_str_In in Hin. congruence.
Qed.

Lemma with_marker_inv (update : Scalp.Layers -> Scalp.Layers)
      (st : Scalp.State) (d : string) :
  scalp_inv districts st ->
  (forall g, layers_pre districts d g -> layers_wf districts d (update g)) ->
  exists st', with_marker update st d = Ok st' /\ scalp_inv districts st'.
Proof.
  intros [Hnd [Hnda [Hiff Hwf]]] Hupd. unfold with_marker.
  set (groups := Scalp.ensure_groups (Scalp.district_groups st) d).
  assert (Hkey : In d (keys groups)).
  { apply ensure_groups_keys. right. reflexivity. }
  pose proof (ensure_groups_NoDup _ d Hnd) as Hnd0. fold groups in Hnd0.
  destruct (proj1 (dict_get_In_keys groups d) Hkey) as [g0 Hg0].
  rewrite Hg0. simpl. eexists. split; [reflexivity|].
  assert (Hpre : layers_pre districts d g0).
  { apply dict_get_In in Hg0. apply ensure_groups_In in Hg0.
    destruct Hg0 as [Hin|[_ ->]].
    - destruct (Hwf _ _ Hin) as [Hn1 [Hn2 [_ [Hi [Hr _]]]]]. repeat split; assumption.
    - repeat split; simpl; auto. }
  split; [|split; [|split]]; simpl.
  - rewrite keys_dict_set_present by exact Hkey. exact Hnd0.
  - apply set_add_NoDup. exact Hnda.
  - intros x. rewrite keys_dict_set_present by exact Hkey.
    rewrite set_add_In. fold groups. unfold groups at 1.
    rewrite ensure_groups_keys, Hiff. reflexivity.
  - intros k g Hin. apply (dict_set_In _ _ _ _ _ Hnd0) in Hin.
    destruct Hin as [[-> ->]|[Hin Hne]]; [apply Hupd; exact Hpre|].
    apply ensure_groups_In in Hin. destruct Hin as [Hin|[Heq _]]; [|contradiction].
    apply Hwf. exact Hin.
Qed.

Lemma add_imd_wf (d : string) (m : Main.CircleMarker) (g : Scalp.Layers) :
  layer_marker districts d "IMD" "green" m ->
  (exists r, In r districts /\ d = title (name r)) ->
  d <> "District out of UP" -> d <> "Invalid Coordinates" ->
  layers_pre districts d g -> layers_wf districts d (add_imd m g).
Proof.
  intros Hm Hr Hs1 Hs2 [Hn1 [Hn2 [Hi Hra]]]. unfold layers_wf, add_imd. simpl.
  repeat split; auto.
  - destruct (Scalp.IMD g); discriminate.
  - apply Forall_app. split; [exact Hi|]. constructor; [exact Hm|constructor].
Qed.

Lemma add_rahat_wf (d : string) (m : Main.CircleMarker) (g : Scalp.Layers) :
  layer_marker districts d "Rahat" "orange" m ->
  (exists r, In r districts /\ d = title (name r)) ->
  d <> "District out of UP" -> d <> "Invalid Coordinates" ->
  layers_pre districts d g -> layers_wf districts d (add_rahat m g).
Proof.
  intros Hm Hr Hs1 Hs2 [Hn1 [Hn2 [Hi Hra]]]. unfold layers_wf, add_rahat. simpl.
  repeat split; auto.
  - destruct (Scalp.IMD g); [destruct (Scalp.Rahat g)|]; discriminate.
  - apply Forall_app. split; [exact Hra|]. constructor; [exact Hm|constructor].
Qed.

Lemma imd_body_cases_scalp :
  body_cases districts (Scalp.imd_body districts) "Lat1" "Long1" "IMD" "green" add_imd
             (Main.imd_body districts)
             (fun m fg => Main.mkGroups (Main.districts_fg fg ++ [m])
                                        (Main.imd_fg fg ++ [m]) (Main.rahat_fg fg)).
Proof.
  intros row st fg. unfold Scalp.imd_body, Main.imd_body, Py.bind.
  destruct (getitem row "Lat1") as [lat|e] eqn:Hlat.
  2:{ right. left. exists e. repeat split. intros [Hin _].
      apply getitem_Raise in Hlat. destruct Hlat; contradiction. }
  destruct (notna lat) eqn:Hnlat; [|auto].
  destruct (getitem row "Long1") as [lon|e] eqn:Hlon.
  2:{ right. left. exists e. repeat split. intros [_ Hin].
      apply getitem_Raise in Hlon. destruct Hlon; contradiction. }
  destruct (notna lon) eqn:Hnlon; [|auto].
  rewrite scalp_get_district_name_main.
  destruct (contains_str ["District out of UP"; "Invalid Coordinates"]
                         (Main.get_district_name districts lat lon)) eqn:Hs;
    simpl; [auto|].
  right. right.
  destruct (main_named_region districts lat lon Hs) as [Hv [r [Hin [Hr Hname]]]].
  destruct (not_sentinel _ Hs) as [Hs1 Hs2].
  exists (Main.get_district_name districts lat lon). eexists.
  split; [|split; [exists r; auto|split; [exact Hs1|split; [exact Hs2|split; reflexivity]]]].
  split; [|reflexivity].
  exists lat, lon, r. simpl. rewrite Hname. repeat split; auto.
Qed.

Lemma rahat_body_cases_scalp :
  body_cases districts (Scalp.rahat_body districts) "Lat2" "Long2" "Rahat" "orange" add_rahat
             (Main.rahat_body districts)
             (fun m fg => Main.mkGroups (Main.districts_fg fg ++ [m])
                                        (Main.imd_fg fg) (Main.rahat_fg fg ++ [m])).
Proof.
  intros row st fg. unfold Scalp.rahat_body, Main.rahat_body, Py.bind.
  destruct (getitem row "Lat2") as [lat|e] eqn:Hlat.
  2:{ right. left. exists e. repeat split. intros [Hin _].
      apply getitem_Raise in Hlat. destruct Hlat; contradiction. }
  destruct (notna lat) eqn:Hnlat; [|auto].
  destruct (getitem row "Long2") as [lon|e] eqn:Hlon.
  2:{ right. left. exists e. repeat split. intros [_ Hin].
      apply getitem_Raise in Hlon. destruct Hlon; contradiction. }
  destruct (notna lon) eqn:Hnlon; [|auto].
  rewrite scalp_get_district_name_main.
  destruct (contains_str ["District out of UP"; "Invalid Coordinates"]
                         (Main.get_district_name districts lat lon)) eqn:Hs;
    simpl; [auto|].
  right. right.
  destruct (main_named_region districts lat lon Hs) as [Hv [r [Hin [Hr Hname]]]].
  destruct (not_sentinel _ Hs) as [Hs1 Hs2].
  exists (Main.get_district_name districts lat lon). eexists.
  split; [|split; [exists r; auto|split; [exact Hs1|split; [exact Hs2|split; reflexivity]]]].
  split; [|reflexivity].
  exists lat, lon, r. simpl. rewrite Hname. repeat split; auto.
Qed.

End ScalpLoops.

Lemma with_marker_flat_map {A : Type} (h : Scalp.Layers -> list A)
      (update : Scalp.Layers -> Scalp.Layers) (st st' : Scalp.State) (d : string) :
  (forall n1 n2, h (Scalp.mkLayers [] [] n1 n2) = []) ->
  with_marker update st d = Ok st' ->
  exists g0 before after,
    flat_map (fun item => h (snd item)) (Scalp.district_groups st)
    = (before ++ h g0 ++ after)%list
    /\ flat_map (fun item => h (snd item)) (Scalp.district_groups st')
       = (before ++ h (update g0) ++ after)%list.
Proof.
  intros Hfresh. unfold with_marker.
  destruct (dict_get (Scalp.ensure_groups (Scalp.district_groups st) d) d)
    as [g0|e] eqn:Hg0; simpl; [|discriminate].
  intros [= <-]. simpl.
  destruct (dict_set_split _ _ _ (update g0) Hg0) as [l1 [l2 [Hsplit ->]]].
  exists g0, (flat_map (fun item => h (snd item)) l1),
    (flat_map (fun item => h (snd item)) l2).
  split; [|rewrite flat_map_app; reflexivity].
  assert (Hsame : flat_map (fun item => h (snd item))
                           (Scalp.ensure_groups (Scalp.district_groups st) d)
                  = flat_map (fun item => h (snd item)) (Scalp.district_groups st)).
  { unfold Scalp.ensure_groups.
    destruct (contains_str (keys (Scalp.district_groups st)) d) eqn:Hd; simpl;
      [reflexivity|].
    rewrite dict_set_absent.
    - rewrite flat_map_app. simpl. rewrite Hfresh, !app_nil_r. reflexivity.
    - intros Hin. apply contains_str_In in Hin. congruence. }
  rewrite <- Hsame, Hsplit, flat_map_app. reflexivity.
Qed.

Section ScalpLoop.
Context {G : Type} `{Geometry G}.
Variable districts : list (Feature G).
Variable body : Series -> Scalp.State -> result Scalp.State.
Variables latc lonc kind colour : string.
Variable add : Main.CircleMarker -> Scalp.Layers -> Scalp.Layers.
Variable on_main : Series -> Main.FeatureGroups -> result Main.FeatureGroups.
Variable push : Main.CircleMarker -> Main.FeatureGroups -> Main.FeatureGroups.
Variable rel : Scalp.State -> Main.FeatureGroups -> Prop.
Hypothesis cases : body_cases districts body latc lonc kind colour add on_main push.
Hypothesis add_wf :
  forall d m g,
    layer_marker districts d kind colour m ->
    (exists r, In r districts /\ d = title (name r)) ->
    d <> "District out of UP" -> d <> "Invalid Coordinates" ->
    layers_pre districts d g -> layers_wf districts d (add m g).
Hypothesis add_rel :
  forall d m st st' fg,
    with_marker (add m) st d = Ok st' -> rel st fg -> rel st' (push m fg).

Lemma scalp_loop_inv (rows : list Series) :
  forall st st',
    for_each body rows st = Ok st' -> scalp_inv districts st -> scalp_inv districts st'.
Proof.
  induction rows as [|row rows IH]; intros st st'; simpl.
  - intros [= <-] Hinv. exact Hinv.
  - intros Hloop Hinv.
    destruct (cases row st Main.no_markers)
      as [[Hb _]|[[e [Hb _]]|[d [m [Hm [Hr [Hs1 [Hs2 [Hb _]]]]]]]]];
      rewrite Hb in Hloop; simpl in Hloop.
    + eapply IH; eauto.
    + discriminate.
    + destruct (with_marker_inv districts (add m) st d Hinv) as [st1 [Hst1 Hinv1]].
      { intros g. apply add_wf; assumption. }
      rewrite Hst1 in Hloop. simpl in Hloop. eapply IH; eauto.
Qed.

Lemma scalp_loop_total (rows : list Series) :
  Forall (fun row => In latc (index row) /\ In lonc (index row)) rows ->
  forall st, scalp_inv districts st -> exists st', for_each body rows st = Ok st'.
Proof.
  induction 1 as [|row rows Hrow _ IH]; intros st Hinv; simpl; [eauto|].
  destruct (cases row st Main.no_markers)
    as [[Hb _]|[[e [_ [_ Hmiss]]]|[d [m [Hm [Hr [Hs1 [Hs2 [Hb _]]]]]]]]].
  - rewrite Hb. simpl. apply IH. exact Hinv.
  - contradiction.
  - destruct (with_marker_inv districts (add m) st d Hinv) as [st1 [Hst1 Hinv1]].
    { intros g. apply add_wf; assumption. }
    rewrite Hb, Hst1. simpl. apply IH. exact Hinv1.
Qed.

Lemma scalp_loop_rel (rows : list Series) :
  forall st st' fg fg',
    for_each body rows st = Ok st' -> for_each on_main rows fg = Ok fg' ->
    rel st fg -> rel st' fg'.
Proof.
  induction rows as [|row rows IH]; intros st st' fg fg'; simpl.
  - intros [= <-] [= <-] Hrel. exact Hrel.
  - intros Hloop Hmain Hrel.
    destruct (cases row st fg)
      as [[Hb Hm]|[[e [Hb _]]|[d [m [_ [_ [_ [_ [Hb Hm]]]]]]]]];
      rewrite Hb in Hloop; try rewrite Hm in Hmain; simpl in *.
    + eapply IH; eauto.
    + discriminate.
    + destruct (with_marker (add m) st d) as [st1|e] eqn:Hst1; simpl in Hloop;
        [|discriminate].
      eapply IH; eauto.
Qed.

End ScalpLoop.

Section ScalpRun.
Context {G : Type} `{Geometry G}.
Variable districts : list (Feature G).

Lemma scalp_inv_initial : scalp_inv districts Scalp.initial.
Proof.
  unfold scalp_inv. simpl. split; [constructor|]. split; [constructor|].
  split; [intros d; tauto|intros d g []].
Qed.

Lemma add_imd_same_markers (d : string) (m : Main.CircleMarker)
      (st st' : Scalp.State) (fg : Main.FeatureGroups) :
  with_marker (add_imd m) st d = Ok st' -> same_markers st fg ->
  same_markers st' (Main.mkGroups (Main.districts_fg fg ++ [m])
                                  (Main.imd_fg fg ++ [m]) (Main.rahat_fg fg)).
Proof.
  intros Hst [Himd Hrahat]. unfold same_markers, all_imd, all_rahat in *. simpl. split.
  - destruct (with_marker_flat_map Scalp.IMD _ _ _ _ (fun _ _ => eq_refl) Hst)
      as [g0 [before [after [Hold Hnew]]]].
    rewrite Hnew. rewrite <- Himd, Hold. simpl.
    rewrite <- !app_assoc. do 2 apply Permutation_app_head. apply Permutation_app_comm.
  - destruct (with_marker_flat_map Scalp.Rahat _ _ _ _ (fun _ _ => eq_refl) Hst)
      as [g0 [before [after [Hold Hnew]]]].
    rewrite Hnew. simpl. rewrite <- Hold. exact Hrahat.
Qed.

Lemma add_rahat_same_markers (d : string) (m : Main.CircleMarker)
      (st st' : Scalp.State) (fg : Main.FeatureGroups) :
  with_marker (add_rahat m) st d = Ok st' -> same_markers st fg ->
  same_markers st' (Main.mkGroups (Main.districts_fg fg ++ [m])
                                  (Main.imd_fg fg) (Main.rahat_fg fg ++ [m])).
Proof.
  intros Hst [Himd Hrahat]. unfold same_markers, all_imd, all_rahat in *. simpl. split.
  - destruct (with_marker_flat_map Scalp.IMD _ _ _ _ (fun _ _ => eq_refl) Hst)
      as [g0 [before [after [Hold Hnew]]]].
    rewrite Hnew. simpl. rewrite <- Hold. exact Himd.
  - destruct (with_marker_flat_map Scalp.Rahat _ _ _ _ (fun _ _ => eq_refl) Hst)
      as [g0 [before [after [Hold Hnew]]]].
    rewrite Hnew. rewrite <- Hrahat, Hold. simpl.
    rewrite <- !app_assoc. do 2 apply Permutation_app_head. apply Permutation_app_comm.
Qed.

Lemma scalp_add_markers_inv (rows : list Series) (st : Scalp.State) :
  Scalp.add_markers districts rows Scalp.initial = Ok st -> scalp_inv districts st.
Proof.
  unfold Scalp.add_markers.
  destruct (for_each (Scalp.imd_body districts) rows Scalp.initial) as [st1|e] eqn:Himd;
    simpl; [|discriminate].
  intros Hrahat.
  eapply (scalp_loop_inv districts _ _ _ _ _ _ _ _ (rahat_body_cases_scalp districts)
                         (add_rahat_wf districts)); [exact Hrahat|].
  eapply (scalp_loop_inv districts _ _ _ _ _ _ _ _ (imd_body_cases_scalp districts)
                         (add_imd_wf districts)); [exact Himd|].
  apply scalp_inv_initial.
Qed.

Lemma scalp_add_markers_Ok (data : DataFrame) :
  has_reading_columns data ->
  exists st, Scalp.add_markers districts (iterrows data) Scalp.initial = Ok st.
Proof.
  intros Hcols. unfold Scalp.add_markers.
  assert (Hcol : forall a b, In a Main.required_cols -> In b Main.required_cols ->
            Forall (fun row => In a (index row) /\ In b (index row)) (iterrows data)).
  { intros a b Ha Hb.
    pose proof (has_reading_columns_rows data a Hcols Ha) as Fa.
    pose proof (has_reading_columns_rows data b Hcols Hb) as Fb.
    rewrite Forall_forall in *. auto. }
  destruct (scalp_loop_total districts _ _ _ _ _ _ _ _ (imd_body_cases_scalp districts)
              (add_imd_wf districts) (iterrows data)
              (Hcol "Lat1" "Long1" ltac:(simpl; auto) ltac:(simpl; auto))
              Scalp.initial scalp_inv_initial) as [st1 Himd].
  rewrite Himd. simpl.
  apply (scalp_loop_total districts _ _ _ _ _ _ _ _ (rahat_body_cases_scalp districts)
           (add_rahat_wf districts) (iterrows data)
           (Hcol "Lat2" "Long2" ltac:(simpl; auto) ltac:(simpl; auto 10))).
  eapply (scalp_loop_inv districts _ _ _ _ _ _ _ _ (imd_body_cases_scalp districts)
                         (add_imd_wf districts)); [exact Himd|].
  apply scalp_inv_initial.
Qed.

Lemma scalp_add_markers_same (rows : list Series) (st : Scalp.State)
      (fg : Main.FeatureGroups) :
  Scalp.add_markers districts rows Scalp.initial = Ok st ->
  Main.add_markers districts rows Main.no_markers = Ok fg ->
  same_markers st fg.
Proof.
  unfold Scalp.add_markers, Main.add_markers.
  destruct (for_each (Scalp.imd_body districts) rows Scalp.initial) as [st1|e] eqn:Himd;
    simpl; [|discriminate].
  destruct (for_each (Main.imd_body districts) rows Main.no_markers) as [fg1|e] eqn:Hmain;
    simpl; [|discriminate].
  intros Hrahat Hmain2.
  eapply (scalp_loop_rel districts _ _ _ _ _ _ _ _ same_markers
            (rahat_body_cases_scalp districts) add_rahat_same_markers);
    [exact Hrahat|exact Hmain2|].
  eapply (scalp_loop_rel districts _ _ _ _ _ _ _ _ same_markers
            (imd_body_cases_scalp districts) add_imd_same_markers);
    [exact Himd|exact Hmain|].
  split; constructor.
Qed.

End ScalpRun.

(** X14: [scalp.py] rejects exactly what [main.py] rejects and in the same
    way: on any pair of tables one of them exits with a diagnostic and a
    status if and only if the other exits with that diagnostic and status. *)
Theorem scalp_validates_like_main {G : Type} `{Geometry G}
        (districts : GeoDataFrame G) (data : DataFrame)
        (stdout : list string) (code : Z) :
  Scalp.run districts data = Exited stdout code
  <-> Main.run districts data = Exited stdout code.
Proof.
  unfold Scalp.run, Main.run.
  change Scalp.required_cols with Main.required_cols.
  change (Scalp.district_name_col districts) with (Main.district_name_col districts).
  destruct (negb (forallb (contains_str (columns data)) Main.required_cols));
    [split; intros [= <- <-]; reflexivity|].
  destruct (Main.district_name_col districts);
    [|split; intros [= <- <-]; reflexivity].
  destruct (Scalp.add_markers _ _ _), (Main.add_markers _ _ _);
    split; discriminate.
Qed.

(** X15: [get_district_name] of [scalp.py] answers as that of [main.py] on
    every table and pair; in particular a pair with [|lat| > 90] or
    [|lon| > 180] is answered "Invalid Coordinates" whatever the polygons
    are. *)
Theorem scalp_invalid_coordinates {G : Type} `{Geometry G}
        (districts : list (Feature G)) (lat lon : float) :
  Scalp.get_district_name districts lat lon = Main.get_district_name districts lat lon
  /\ (out_of_range lat lon = true ->
      Scalp.get_district_name districts lat lon = "Invalid Coordinates").
Proof.
  split; [apply scalp_get_district_name_main|].
  intros Hout. apply out_of_range_not_valid in Hout.
  unfold Scalp.get_district_name. fold (valid_pair lat lon). rewrite Hout. reflexivity.
Qed.

Lemma scalp_invalid_coordinates_witness :
  Scalp.get_district_name (features polar) 95 0 = "Invalid Coordinates".
Proof.
  apply (scalp_invalid_coordinates (features polar) 95 0). reflexivity.
Defined.

(** X16: on a page saved by [scalp.py] the dropdown starts with "All
    Districts", followed by the districts that have layers, each once, in
    sorted order. *)
Theorem scalp_dropdown_lists_layered_districts {G : Type} `{Geometry G}
        (districts : GeoDataFrame G) (data : DataFrame)
        (stdout : list string) (page : Scalp.Page) :
  Scalp.run districts data = Finished stdout page ->
  exists rest,
    Scalp.district_list page = "All Districts" :: rest
    /\ Sorted (fun a b => String.leb a b = true) rest
    /\ NoDup rest
    /\ (forall d, In d rest <-> In d (keys (Scalp.layers page))).
Proof.
  unfold Scalp.run.
  destruct (negb (forallb (contains_str (columns data)) Scalp.required_cols));
    [discriminate|].
  destruct (Scalp.district_name_col districts); [|discriminate].
  destruct (Scalp.add_markers (Scalp.standardize (features districts)) (iterrows data)
                              Scalp.initial) as [st|e] eqn:Hst; [|discriminate].
  intros [= _ <-]. exists (Scalp.sorted (Scalp.active_districts st)).
  split; [reflexivity|]. split; [apply sorted_Sorted|].
  apply scalp_add_markers_inv in Hst. destruct Hst as [_ [Hnda [Hiff _]]].
  split.
  - eapply Permutation_NoDup; [|exact Hnda]. symmetry. apply sorted_Permutation.
  - intros d. simpl. rewrite <- Hiff. split; apply Permutation_in.
    + apply sorted_Permutation.
    + symmetry. apply sorted_Permutation.
Qed.

Lemma scalp_dropdown_lists_layered_districts_witness :
  exists rest,
    ["All Districts"; "Agra"; "Mathura"] = "All Districts" :: rest
    /\ Sorted (fun a b => String.leb a b = true) rest
    /\ NoDup rest
    /\ (forall d, In d rest <-> In d ["Mathura"; "Agra"]).
Proof.
  apply (scalp_dropdown_lists_layered_districts overlapping
           (readings [reading 28.5 79.5 27.5 78.5; reading 27.5 78.5 95 78.5])
           ["✅ Map saved as 'ttsx.html'"]
           (Scalp.mkPage
              [("Mathura",
                Scalp.mkLayers
                  [Main.mkMarker (28.5, 79.5)%float "District: Mathura<br>Type: IMD"
                                 "green"]
                  [] "IMD - Mathura" "Rahat - Mathura");
               ("Agra",
                Scalp.mkLayers
                  [Main.mkMarker (27.5, 78.5)%float "District: Agra<br>Type: IMD" "green"]
                  [Main.mkMarker (27.5, 78.5)%float "District: Agra<br>Type: Rahat"
                                 "orange"]
                  "IMD - Agra" "Rahat - Agra")]
              [("Mathura", ["IMD - Mathura"; "Rahat - Mathura"]);
               ("Agra", ["IMD - Agra"; "Rahat - Agra"])]
              ["All Districts"; "Agra"; "Mathura"])).
  vm_compute. reflexivity.
Defined.

(** X17: on the page saved by [scalp.py] every district has at most one
    entry; the entry of a district [d] is named "IMD - d" and
    "Rahat - d", is not empty, holds only markers placed inside a polygon
    with [d] in their popup, and [d] is the title-cased name of a boundary
    row, never one of the two sentinel answers.  The layer-name map lists,
    for the same districts in the same order, those two names. *)
Theorem scalp_layers_wellformed {G : Type} `{Geometry G}
        (districts : GeoDataFrame G) (data : DataFrame) :
  has_reading_columns data -> has_name_column districts ->
  exists stdout page,
    Scalp.run districts data = Finished stdout page
    /\ NoDup (keys (Scalp.layers page))
    /\ (forall d g, In (d, g) (Scalp.layers page) ->
                    layers_wf (Scalp.standardize (features districts)) d g)
    /\ Scalp.layer_names page
       = map (fun item => (fst item, ["IMD - " ++ fst item; "Rahat - " ++ fst item]))
             (Scalp.layers page).
Proof.
  intros Hcols Hname. unfold Scalp.run.
  change Scalp.required_cols with Main.required_cols.
  rewrite (has_reading_columns_forallb _ Hcols). simpl.
  change (Scalp.district_name_col districts) with (Main.district_name_col districts).
  destruct (main_district_name_col_Some _ Hname) as [col ->].
  destruct (scalp_add_markers_Ok (Scalp.standardize (features districts)) data Hcols)
    as [st Hst].
  rewrite Hst. eexists. eexists. split; [reflexivity|]. simpl.
  apply scalp_add_markers_inv in Hst. destruct Hst as [Hnd [_ [_ Hwf]]].
  split; [exact Hnd|]. split; [exact Hwf|].
  rewrite (layer_name_map_spec _ Hnd). apply map_ext_in.
  intros [d g] Hin. simpl. destruct (Hwf d g Hin) as [-> [-> _]]. reflexivity.
Qed.

Lemma scalp_layers_wellformed_witness :
  exists stdout page,
    Scalp.run overlapping
              (readings [reading 28.5 79.5 27.5 78.5; reading 27.5 78.5 95 78.5])
    = Finished stdout page
    /\ NoDup (keys (Scalp.layers page))
    /\ (forall d g, In (d, g) (Scalp.layers page) ->
                    layers_wf (Scalp.standardize (features overlapping)) d g)
    /\ Scalp.layer_names page
       = map (fun item => (fst item, ["IMD - " ++ fst item; "Rahat - " ++ fst item]))
             (Scalp.layers page).
Proof.
  apply (scalp_layers_wellformed overlapping
           (readings [reading 28.5 79.5 27.5 78.5; reading 27.5 78.5 95 78.5])).
  - repeat (apply Forall_cons; [simpl; auto 10|]). apply Forall_nil.
  - left. simpl. auto.
Defined.

(** X18: on the same two tables [scalp.py] and [main.py] place the same
    markers: the IMD layers of all districts together hold the markers of
    the IMD group of [main.py], and likewise for Rahat, up to order. *)
Theorem scalp_places_the_markers_of_main {G : Type} `{Geometry G}
        (districts : GeoDataFrame G) (data : DataFrame) :
  has_reading_columns data -> has_name_column districts ->
  exists out1 page out2 fg,
    Scalp.run districts data = Finished out1 page
    /\ Main.run districts data = Finished out2 fg
    /\ Permutation (all_imd (Scalp.layers page)) (Main.imd_fg fg)
    /\ Permutation (all_rahat (Scalp.layers page)) (Main.rahat_fg fg).
Proof.
  intros Hcols Hname. unfold Scalp.run, Main.run.
  change Scalp.required_cols with Main.required_cols.
  rewrite (has_reading_columns_forallb _ Hcols). simpl.
  change (Scalp.district_name_col districts) with (Main.district_name_col districts).
  destruct (main_district_name_col_Some _ Hname) as [col ->].
  change (Scalp.standardize (features districts))
    with (Main.standardize (features districts)).
  destruct (scalp_add_markers_Ok (Main.standardize (features districts)) data Hcols)
    as [st Hst].
  destruct (add_markers_Ok (Main.standardize (features districts)) data Hcols)
    as [fg Hfg].
  rewrite Hst, Hfg. do 4 eexists. split; [reflexivity|]. split; [reflexivity|].
  simpl. exact (scalp_add_markers_same _ _ _ _ Hst Hfg).
Qed.

Lemma scalp_places_the_markers_of_main_witness :
  exists out1 page out2 fg,
    Scalp.run overlapping
              (readings [reading 28.5 79.5 27.5 78.5; reading 27.5 78.5 95 78.5])
    = Finished out1 page
    /\ Main.run overlapping
                (readings [reading 28.5 79.5 27.5 78.5; reading 27.5 78.5 95 78.5])
       = Finished out2 fg
    /\ Permutation (all_imd (Scalp.layers page)) (Main.imd_fg fg)
    /\ Permutation (all_rahat (Scalp.layers page)) (Main.rahat_fg fg).
Proof.
  apply (scalp_places_the_markers_of_main overlapping
           (readings [reading 28.5 79.5 27.5 78.5; reading 27.5 78.5 95 78.5])).
  - repeat (apply Forall_cons; [simpl; auto 10|]). apply Forall_nil.
  - left. simpl. auto.
Defined.
